(** * A shallow embedding of [spec_plots/specutils_stis.py]

    The module reads STIS 1D spectra (x1d / sx1 FITS files) into a three
    level object tree (spectrum, associations, orders), chooses which
    associations to plot, and renders preview plots with matplotlib.

    Modelling conventions:
    - The source is Python 2 ([xrange] is used), so [round] rounds halves
      away from zero and [range] returns a list.
    - A Python float is [fl]: a finite value (only its order matters here,
      so finite values are carried as integers), NaN, or an infinity.
    - A Python dict is a [gmap string pyval]; a missing key raises
      [KeyError key].
    - Python exceptions are the constructors of [exn]; fallible code
      returns [result A].
    - The matplotlib calls made on one subplot are recorded, in order, as
      a list of [op]; figure level calls are [fig_op]. *)

From Stdlib Require Import ZArith Ascii Sorting.Sorted.
From stdpp Require Import base gmap strings list.

Local Open Scope Z_scope.

(* ------------------------------------------------------------------ *)
(** ** Python values, exceptions and the error monad *)

Inductive fl : Type :=
| Fin (z : Z)
| NaN
| PInf
| NInf.

Inductive exn : Type :=
| KeyError (key : string)
| IndexError
| TypeError
| ValueError (msg : string)
| SpecUtilsError (msg : string)
| OSError (errno : Z) (strerror : string)
| SystemExit (code : Z).

Inductive result (A : Type) : Type :=
| Ok (a : A)
| Err (e : exn).
Arguments Ok {A} a.
Arguments Err {A} e.

Definition bind {A B} (m : result A) (k : A -> result B) : result B :=
  match m with
  | Ok a => k a
  | Err e => Err e
  end.

Notation "'let*' x := m 'in' k" := (bind m (fun x => k))
  (at level 200, x name, m at level 100, right associativity).

(* ------------------------------------------------------------------ *)
(** ** [get_association_indices] *)

(** Python 2 [round] on a non-negative rational [p / q] ([q > 0]): round
    to the nearest integer, halves away from zero. *)
Definition py2_round_nonneg (p q : Z) : Z := (2 * p + q) / (2 * q).

(** [range(n)] in Python 2 is the list [[0, ..., n-1]]. *)
Definition py_range (n : Z) : list Z :=
  map Z.of_nat (seq 0 (Z.to_nat n)).

Definition get_association_indices {A : Type} (associations : list A)
  : list Z :=
  let n_associations := Z.of_nat (length associations) in
  if n_associations <=? 3 then py_range n_associations
  else
    let midindex := py2_round_nonneg n_associations 2 in
    [0; midindex; n_associations - 1].


(* ------------------------------------------------------------------ *)
(** ** The data model: [STISOrderSpectrum], [STISExposureSpectrum],
    [STIS1DSpectrum] *)

Record order_spectrum : Type := {
  nelem : Z;
  wavelengths : list fl;
  fluxes : list fl;
  fluxerrs : list fl;
  dqs : list fl
}.

(** [numpy.zeros(n)]: [n] float zeros; a negative size is refused. *)
Definition np_zeros (n : Z) : result (list fl) :=
  if n <? 0 then Err (ValueError "negative dimensions are not allowed")
  else Ok (repeat (Fin 0) (Z.to_nat n)).

(** [numpy.asarray(a) if a is not None else numpy.zeros(self.nelem)]. *)
Definition array_or_zeros (a : option (list fl)) (n : Z) : result (list fl) :=
  match a with
  | Some xs => Ok xs
  | None => np_zeros n
  end.

(** [STISOrderSpectrum.__init__(nelem, wavelengths, fluxes, fluxerrs, dqs)];
    [None] stands for an argument left at its default [None]. *)
Definition STISOrderSpectrum (nelem0 : option Z)
  (wavelengths0 fluxes0 fluxerrs0 dqs0 : option (list fl))
  : result order_spectrum :=
  let n := match nelem0 with Some n => n | None => 0 end in
  let* wl := array_or_zeros wavelengths0 n in
  let* fx := array_or_zeros fluxes0 n in
  let* fe := array_or_zeros fluxerrs0 n in
  let* dq := array_or_zeros dqs0 n in
  Ok {| nelem := n; wavelengths := wl; fluxes := fx; fluxerrs := fe;
        dqs := dq |}.

Record exposure_spectrum : Type := { orders : list order_spectrum }.

Definition empty_orders_msg : string :=
  "Must provide a list of at least one STISOrderSpectrum object, input list is empty.".

(** [STISExposureSpectrum.__init__(order_spectra)]. *)
Definition STISExposureSpectrum (order_spectra : list order_spectrum)
  : result exposure_spectrum :=
  if (0 <? Z.of_nat (length order_spectra))%Z
  then Ok {| orders := order_spectra |}
  else Err (ValueError empty_orders_msg).

Record stis_spectrum : Type := {
  orig_file : option string;
  associations : list exposure_spectrum
}.

(** [STIS1DSpectrum.__init__(association_spectra, orig_file=None)]: it only
    records its arguments. *)
Definition STIS1DSpectrum (association_spectra : list exposure_spectrum)
  (orig_file0 : option string) : stis_spectrum :=
  {| orig_file := orig_file0; associations := association_spectra |}.

(* ------------------------------------------------------------------ *)
(** ** [readspec] *)

(** One row of an x1d / sx1 binary table: the columns read by [readspec]. *)
Record table_row : Type := {
  sporder : Z;
  row_nelem : Z;
  row_WAVELENGTH : list fl;
  row_FLUX : list fl;
  row_ERROR : list fl;
  row_DQ : list fl
}.

(** An HDU of the opened file.  A binary table is its list of rows (all
    columns of a FITS table have the same number of rows); an HDU without
    table data has [data = None], and indexing [None] by a column name
    raises [TypeError]. *)
Inductive hdu : Type :=
| NoTableHDU
| BinTableHDU (rows : list table_row).

Fixpoint mapM {A B} (f : A -> result B) (l : list A) : result (list B) :=
  match l with
  | [] => Ok []
  | x :: xs => let* y := f x in let* ys := mapM f xs in Ok (y :: ys)
  end.

(** The comprehension building one [STISOrderSpectrum] per table row. *)
Definition order_of_row (r : table_row) : result order_spectrum :=
  STISOrderSpectrum (Some (row_nelem r)) (Some (row_WAVELENGTH r))
    (Some (row_FLUX r)) (Some (row_ERROR r)) (Some (row_DQ r)).

Definition orders_of_hdu (exten : hdu) : result (list order_spectrum) :=
  match exten with
  | NoTableHDU => Err TypeError
  | BinTableHDU rows => mapM order_of_row rows
  end.

(** One pass of the loop body: the exposure is built first and appended to
    the running list [all_association_spectra] only when the construction
    returned.  The list is returned in both cases, as it is a Python list
    the loop mutates. *)
Definition readspec_append (acc : list exposure_spectrum)
  (all_order_spectra : list order_spectrum)
  : result unit * list exposure_spectrum :=
  match STISExposureSpectrum all_order_spectra with
  | Ok this_exposure_spectrum => (Ok tt, acc ++ [this_exposure_spectrum])
  | Err e => (Err e, acc)
  end.

Fixpoint readspec_loop (acc : list exposure_spectrum) (extens : list hdu)
  : result (list exposure_spectrum) :=
  match extens with
  | [] => Ok acc
  | exten :: rest =>
      match orders_of_hdu exten with
      | Err e => Err e
      | Ok all_order_spectra =>
          match readspec_append acc all_order_spectra with
          | (Ok _, acc') => readspec_loop acc' rest
          | (Err e, _) => Err e
          end
      end
  end.

(** [readspec(input_file)], given the HDU list [fits.open] returns for
    [input_file]: every HDU after the primary one is an association. *)
Definition readspec (input_file : string) (hdulist : list hdu)
  : result stis_spectrum :=
  let* all_association_spectra := readspec_loop [] (drop 1 hdulist) in
  Ok (STIS1DSpectrum all_association_spectra (Some input_file)).

(* ------------------------------------------------------------------ *)
(** ** Python values held by the stitched-spectrum and plot-metrics dicts *)

(** An avoid region object: only its [minwl] and [maxwl] attributes are
    read. *)
Record avoid_region : Type := { minwl : fl; maxwl : fl }.

Inductive pyval : Type :=
| VArr (xs : list fl)                 (** a numpy array / list of floats *)
| VFloat (x : fl)
| VStr (s : string)
| VAvoids (ars : list avoid_region)   (** a list of avoid-region objects *)
| VNone.

(** [d[key]] on a Python dict. *)
Definition dict_get (d : gmap string pyval) (key : string) : result pyval :=
  match d !! key with
  | Some v => Ok v
  | None => Err (KeyError key)
  end.

(** [l[i]] on a Python list, [i >= 0]. *)
Definition list_get {A} (l : list A) (i : nat) : result A :=
  match l !! i with
  | Some x => Ok x
  | None => Err IndexError
  end.

(** [v[i]] on a float array. *)
Definition arr_get (v : pyval) (i : nat) : result fl :=
  match v with
  | VArr xs => list_get xs i
  | _ => Err TypeError
  end.

Definition isfinite (x : fl) : bool :=
  match x with Fin _ => true | _ => false end.

Definition is_nan (x : fl) : bool :=
  match x with NaN => true | _ => false end.

(** [all(numpy.isfinite(v))]: element-wise on an array; on anything else
    (a scalar, [None], a string) Python raises [TypeError]. *)
Definition all_isfinite (v : pyval) : result bool :=
  match v with
  | VArr xs => Ok (forallb isfinite xs)
  | _ => Err TypeError
  end.

(** IEEE order on non-NaN floats. *)
Definition fle (x y : fl) : bool :=
  match x, y with
  | NInf, _ => true
  | _, PInf => true
  | Fin a, Fin b => a <=? b
  | _, _ => false
  end.

Definition fmin (x y : fl) : fl := if fle x y then x else y.
Definition fmax (x y : fl) : fl := if fle x y then y else x.

Definition zero_size_msg (op : string) : string :=
  "zero-size array to reduction operation " +:+ op +:+ " which has no identity".

(** [numpy.nanmin] / [numpy.nanmax]: NaN entries are skipped (infinite ones
    are not); an all-NaN array gives NaN; an empty array raises
    [ValueError]; a scalar is returned as it is. *)
Definition nan_reduce (f : fl -> fl -> fl) (opname : string) (v : pyval)
  : result fl :=
  match v with
  | VArr [] => Err (ValueError (zero_size_msg opname))
  | VArr xs =>
      match filter (fun x => is_nan x = false) xs with
      | [] => Ok NaN
      | y :: ys => Ok (fold_left f ys y)
      end
  | VFloat x => Ok x
  | _ => Err TypeError
  end.

Definition nanmin (v : pyval) : result fl := nan_reduce fmin "fmin" v.
Definition nanmax (v : pyval) : result fl := nan_reduce fmax "fmax" v.

Definition as_avoid_regions (v : pyval) : result (list avoid_region) :=
  match v with
  | VAvoids ars => Ok ars
  | _ => Err TypeError
  end.

(* ------------------------------------------------------------------ *)
(** ** Decimal formatting ([str(n)], ['{0:04d}'.format(n)]) *)

Definition digit_char (d : Z) : ascii :=
  nth (Z.to_nat d) (String.list_ascii_of_string "0123456789") "0"%char.

Fixpoint dec_digits_aux (fuel : nat) (n : Z) (acc : list ascii)
  : list ascii :=
  match fuel with
  | O => acc
  | S f =>
      let acc' := digit_char (n mod 10) :: acc in
      if n <? 10 then acc' else dec_digits_aux f (n / 10) acc'
  end.

(** Decimal digits of [n >= 0] (a number has at most [log2 n + 1]
    decimal digits). *)
Definition dec_digits (n : Z) : list ascii :=
  dec_digits_aux (S (Z.to_nat (Z.log2 n))) n [].

(** [str(n)] for a Python int. *)
Definition py_str_int (n : Z) : string :=
  String.string_of_list_ascii
    (if n <? 0 then "-"%char :: dec_digits (- n) else dec_digits n).

(** ['{0:04d}'.format(n)]: sign, then zeros up to a total width of 4,
    then the digits; wider numbers are not truncated. *)
Definition format_04d (n : Z) : list ascii :=
  let sign := if n <? 0 then ["-"%char] else [] in
  let ds := dec_digits (Z.abs n) in
  sign ++ repeat "0"%char (4 - length sign - length ds) ++ ds.

(* ------------------------------------------------------------------ *)
(** ** [posixpath]: [split], [dirname], [basename], [splitext] *)

Definition ascii_eqb (a b : ascii) : bool := bool_decide (a = b).

(** [p.rfind(c)]: index of the last occurrence of [c], or [-1]. *)
Fixpoint rfind (c : ascii) (p : list ascii) : Z :=
  match p with
  | [] => -1
  | x :: xs =>
      let r := rfind c xs in
      if 0 <=? r then r + 1 else if ascii_eqb x c then 0 else -1
  end.

Fixpoint lstrip_slash (s : list ascii) : list ascii :=
  match s with
  | x :: xs => if ascii_eqb x "/"%char then lstrip_slash xs else s
  | [] => []
  end.

(** [s.rstrip('/')]. *)
Definition rstrip_slash (s : list ascii) : list ascii :=
  reverse (lstrip_slash (reverse s)).

(** The head computation shared by [split] and [dirname]:
    [head = p[:i]; if head and head != sep*len(head): head = head.rstrip(sep)]. *)
Definition path_head (p : list ascii) : list ascii :=
  let i := Z.to_nat (rfind "/"%char p + 1) in
  let head := take i p in
  if bool_decide (head <> [])
     && negb (forallb (fun x => ascii_eqb x "/"%char) head)
  then rstrip_slash head else head.

(** [os.path.split(p)]. *)
Definition path_split (p : list ascii) : list ascii * list ascii :=
  let i := Z.to_nat (rfind "/"%char p + 1) in
  (path_head p, drop i p).

(** [os.path.dirname(p)] and [os.path.basename(p)]. *)
Definition dirname (p : list ascii) : list ascii := path_head p.
Definition basename (p : list ascii) : list ascii :=
  drop (Z.to_nat (rfind "/"%char p + 1)) p.

(** [os.path.splitext(p)] ([genericpath._splitext] with [sep = '/'],
    [extsep = '.']).  The [while] loop over [p[sepIndex+1:dotIndex]] returns
    at the first character that is not a dot, i.e. it returns iff that
    slice has a non-dot character: leading dots do not start an extension. *)
Definition splitext (p : list ascii) : list ascii * list ascii :=
  let sepIndex := rfind "/"%char p in
  let dotIndex := rfind "."%char p in
  if sepIndex <? dotIndex then
    let filenameIndex := Z.to_nat (sepIndex + 1) in
    let between := take (Z.to_nat dotIndex - filenameIndex)
                        (drop filenameIndex p) in
    if existsb (fun x => negb (ascii_eqb x "."%char)) between
    then (take (Z.to_nat dotIndex) p, drop (Z.to_nat dotIndex) p)
    else (p, [])
  else (p, []).

(** The output file name built by [plotspec]:
    [output_splits[0]+os.path.sep+file_splits[0]+'_{0:04d}'.format(output_size)+file_splits[1]]. *)
Definition revised_output_file (output_file : list ascii) (output_size : Z)
  : list ascii :=
  let '(head, tail) := path_split output_file in
  let '(root, ext) := splitext tail in
  head ++ ["/"%char] ++ root ++ ["_"%char] ++ format_04d output_size ++ ext.

(* ------------------------------------------------------------------ *)
(** ** Matplotlib calls recorded by the renderer *)

(** Calls made on one subplot ([this_plotarea]) or on the global rc
    configuration while rendering it. *)
Inductive op : Type :=
| SetTitle (title : pyval) (loc size color : string)
| Plot (xs ys : pyval) (fmt : string)
| Grid (on : bool)
(** [specutils.debug_oplot(ax, wls, fls, flerrs, dqs, median_flux,
    median_fluxerr, flux_scale_factor, fluxerr_scale_factor, fluxerr_95th)] *)
| DebugOplot (wls fls flerrs dqs median_flux median_fluxerr : pyval)
    (flux_scale_factor fluxerr_scale_factor : fl) (fluxerr_95th : pyval)
| Axvspan (lo hi : fl) (facecolor : string)
(** [set_xlim(pyplot_xrange)]: the limits matplotlib chose for the data *)
| SetXlimAuto
| SetXlim (lo hi : fl)
| RcFont (size : Z)
| SetXticks (ticks : list fl)
(** [set_xticklabels(get_xticks(), rotation=25.)] *)
| SetXticklabelsRotated
| SetXFormatter (fmt : string)
| SetYFormatter (fmt : string)
| RcDefaults
| TickParamsX (labelsize : Z)
| SetXlabel (s : string) (fontsize : Z)
| SetYlabel (s : string) (fontsize : Z)
| SetYlim (yrange : pyval)
| SetAxisBgcolor (color : string)
| SetYticklabels (labels : list string)
(** [text(0.5, 0.5, s, horizontalalignment="center",
    verticalalignment="center", transform=transAxes, size=size)]: text
    centred in the subplot *)
| TextCentered (s : string) (size : string).

Definition newline : string := String (ascii_of_nat 10) EmptyString.

Definition stitched_format_msg (key : string) : string :=
  "The provided stitched spectrum does not have the expected format, missing key "
  +:+ "'" +:+ key +:+ "'" +:+ ".".

(** The [try] block reading the stitched spectrum: a [KeyError] is turned
    into [SpecUtilsError]; [str(KeyError(k))] is [k] in quotes. *)
Definition get_stitched (st : gmap string pyval)
  : result (pyval * pyval * pyval * pyval * pyval) :=
  match
    (let* all_wls := dict_get st "wls" in
     let* all_fls := dict_get st "fls" in
     let* all_flerrs := dict_get st "flerrs" in
     let* all_dqs := dict_get st "dqs" in
     let* title_addendum := dict_get st "title" in
     Ok (all_wls, all_fls, all_flerrs, all_dqs, title_addendum))
  with
  | Err (KeyError k) => Err (SpecUtilsError (stitched_format_msg k))
  | r => r
  end.

(** The styling block common to both branches: two rotated ticks for a
    thumbnail, axis labels for a big plot. *)
Definition style_ops (is_bigplot full_ylabels : bool) (all_wls : pyval)
  : result (list op) :=
  if negb is_bigplot then
    let* minwl := nanmin all_wls in
    let* maxwl := nanmax all_wls in
    Ok [RcFont 10; SetXticks [minwl; maxwl]; SetXticklabelsRotated;
        SetXFormatter "%6.1f"]
  else
    Ok ([RcDefaults; TickParamsX 14;
         SetXlabel "Wavelength $(\AA)$" 16;
         SetYlabel "Flux $\mathrm{(erg/s/cm^2\!/\AA)}$" 16]
        ++ (if full_ylabels then [SetYFormatter "%3.2E"] else [])).

Definition grey_span (lo hi : fl) : op := Axvspan lo hi "lightgrey".

(** The branch taken when both bounds of the optimal x-axis range are
    finite. *)
Definition valid_branch (is_bigplot debug full_ylabels : bool)
  (flux_scale_factor fluxerr_scale_factor : fl)
  (all_wls all_fls all_flerrs all_dqs : pyval)
  (pm : gmap string pyval) (optimal_xaxis_range : pyval) : result (list op) :=
  let plot_ops := [Plot all_wls all_fls "b"; Grid true] in
  let* debug_ops :=
    if debug then
      let* median_flux := dict_get pm "median_flux" in
      let* median_fluxerr := dict_get pm "median_fluxerr" in
      let* fluxerr_95th := dict_get pm "fluxerr_95th" in
      let* lo := nanmin all_wls in
      let* r0 := arr_get optimal_xaxis_range 0 in
      let* r1 := arr_get optimal_xaxis_range 1 in
      let* hi := nanmax all_wls in
      let* ars := dict_get pm "avoid_regions" in
      let* ars := as_avoid_regions ars in
      Ok ([DebugOplot all_wls all_fls all_flerrs all_dqs median_flux
             median_fluxerr flux_scale_factor fluxerr_scale_factor
             fluxerr_95th;
           grey_span lo r0; grey_span r1 hi]
          ++ map (fun ar => grey_span (minwl ar) (maxwl ar)) ars)
    else Ok [] in
  let* styling := style_ops is_bigplot full_ylabels all_wls in
  let* ylim_ops :=
    if negb debug then
      let* yr := dict_get pm "y_axis_range" in Ok [SetYlim yr]
    else Ok [] in
  Ok (plot_ops ++ debug_ops ++ [SetXlimAuto] ++ styling ++ ylim_ops).

(** The "Fluxes are all 0." branch, taken when a bound of the optimal
    x-axis range is not finite. *)
Definition degenerate_branch (is_bigplot full_ylabels : bool)
  (all_wls : pyval) : result (list op) :=
  let* lo := nanmin all_wls in
  let* hi := nanmax all_wls in
  let* styling := style_ops is_bigplot full_ylabels all_wls in
  let '(textsize, plottext) :=
    if negb is_bigplot then ("small", "Fluxes are " +:+ newline +:+ " all 0.")
    else ("x-large", "Fluxes are all 0.") in
  Ok ([SetXlim lo hi; SetAxisBgcolor "lightgrey"; SetYticklabels []]
      ++ styling ++ [TextCentered plottext textsize]).

(** The body of the loop of [plotspec] for subplot [i]. *)
Definition render_assoc (is_bigplot : bool) (n_associations : Z)
  (association_indices : list Z) (i : nat) (debug full_ylabels : bool)
  (flux_scale_factor fluxerr_scale_factor : fl)
  (stitched : gmap string pyval) (plot_metrics : list (gmap string pyval))
  : result (list op) :=
  let* extracted := get_stitched stitched in
  let '(all_wls, all_fls, all_flerrs, all_dqs, title_addendum) := extracted in
  let title_ops :=
    if is_bigplot then [SetTitle title_addendum "right" "small" "red"]
    else [] in
  let* assoc_ops :=
    if (1 <? n_associations) && is_bigplot then
      let* ai := list_get association_indices i in
      Ok [SetTitle (VStr ("Association " +:+ py_str_int (ai + 1) +:+ "/"
                          +:+ py_str_int n_associations))
            "center" "small" "black"]
    else Ok [] in
  let* pm := list_get plot_metrics i in
  let* optimal_xaxis_range := dict_get pm "optimal_xaxis_range" in
  let* finite := all_isfinite optimal_xaxis_range in
  let* body :=
    if finite then
      valid_branch is_bigplot debug full_ylabels flux_scale_factor
        fluxerr_scale_factor all_wls all_fls all_flerrs all_dqs pm
        optimal_xaxis_range
    else degenerate_branch is_bigplot full_ylabels all_wls in
  Ok (title_ops ++ assoc_ops ++ body).

(* ------------------------------------------------------------------ *)
(** ** [plotspec] *)

(** Figure level calls. *)
Inductive fig_op : Type :=
| FigSubplots (nrows : Z) (output_size : Z) (dpi_val : fl)
| FigAdjust (is_bigplot : bool)
| FigSuptitle (s : string)
| AxOps (i : nat) (ops : list op)
| SaveFig (fname : string) (format : string) (dpi_val : fl)
| Show.

(** The file system as [plotspec] sees it: [os.path.isdir], and
    [os.mkdir], which returns [None] on success or the [errno] and
    [strerror] of the [OSError] it raises. *)
Record os_env : Type := {
  isdir : string -> bool;
  mkdir : string -> option (Z * string)
}.

(** What a call of [plotspec] produces: the text written to [sys.stderr]
    and either the calls made on the figure or the exception raised. *)
Record run : Type := {
  stderr_out : string;
  outcome : result (list fig_op)
}.

(** [repr(s)] of a Python 2 [str] without quotes, backslashes or
    non-printable characters. *)
Definition py_repr_str (s : string) : string := "'" +:+ s +:+ "'".

Definition permission_msg (strerror : string) : string :=
  "*** MAKE_HST_SPEC_PREVIEWS ERROR: Output directory could not be created, "
  +:+ py_repr_str strerror +:+ newline.

Definition chars (s : string) : list ascii := String.list_ascii_of_string s.
Definition of_chars (l : list ascii) : string := String.string_of_list_ascii l.

(** "Make sure the output path exists, if not, create it." *)
Definition ensure_output_dir (env : os_env) (output_type output_file : string)
  : string * result unit :=
  if bool_decide (output_type <> "screen") then
    let d := of_chars (dirname (chars output_file)) in
    if isdir env d then ("", Ok tt)
    else
      match mkdir env d with
      | None => ("", Ok tt)
      | Some (errno, strerror) =>
          if errno =? 13 then (permission_msg strerror, Err (SystemExit 1))
          else ("", Err (OSError errno strerror))
      end
  else ("", Ok tt).

(** The loop [for i in xrange(len(stitched_spectra))]. *)
Fixpoint render_loop (is_bigplot : bool) (n_associations : Z)
  (association_indices : list Z) (debug full_ylabels : bool)
  (flux_scale_factor fluxerr_scale_factor : fl)
  (plot_metrics : list (gmap string pyval))
  (i : nat) (stitched : list (gmap string pyval)) : result (list fig_op) :=
  match stitched with
  | [] => Ok []
  | st :: rest =>
      let* ops := render_assoc is_bigplot n_associations association_indices
                    i debug full_ylabels flux_scale_factor
                    fluxerr_scale_factor st plot_metrics in
      let* more := render_loop is_bigplot n_associations association_indices
                     debug full_ylabels flux_scale_factor
                     fluxerr_scale_factor plot_metrics (S i) rest in
      Ok (AxOps i ops :: more)
  end.

(** [os.path.basename(stis_spectrum.orig_file)]; [orig_file = None] makes
    [basename] raise. *)
Definition orig_basename (sp : stis_spectrum) : result string :=
  match orig_file sp with
  | Some f => Ok (of_chars (basename (chars f)))
  | None => Err TypeError
  end.

(** [plotspec(...)].  [output_size] is a Python int, so the rounding step
    at its start leaves it unchanged; [n_consecutive] is not used by the
    body. *)
Definition plotspec (env : os_env) (stis_spectrum0 : stis_spectrum)
  (association_indices : list Z) (stitched_spectra : list (gmap string pyval))
  (output_type output_file : string) (n_consecutive : Z)
  (flux_scale_factor fluxerr_scale_factor : fl)
  (plot_metrics : list (gmap string pyval)) (dpi_val : fl)
  (output_size : Z) (debug full_ylabels : bool) : run :=
  let '(err_text, dir_ok) := ensure_output_dir env output_type output_file in
  {| stderr_out := err_text;
     outcome :=
       let* _ := dir_ok in
       let n_associations := Z.of_nat (length (associations stis_spectrum0)) in
       let n_subplots := Z.of_nat (length stitched_spectra) in
       let is_bigplot := 128 <? output_size in
       let* layout :=
         if is_bigplot then
           let* t := orig_basename stis_spectrum0 in
           Ok [FigAdjust true; FigSuptitle t]
         else Ok [FigAdjust false] in
       let* axes := render_loop is_bigplot n_associations association_indices
                      debug full_ylabels flux_scale_factor
                      fluxerr_scale_factor plot_metrics 0 stitched_spectra in
       let output :=
         if bool_decide (output_type <> "screen") then
           [SaveFig (of_chars (revised_output_file (chars output_file)
                                 output_size))
              output_type dpi_val]
         else [Show] in
       Ok ([FigSubplots n_subplots output_size dpi_val] ++ layout ++ axes
           ++ output) |}.

(* ------------------------------------------------------------------ *)
(** ** Definitions used in the statements below *)

Definition default_nelem (nelem0 : option Z) : Z :=
  match nelem0 with Some n => n | None => 0 end.

(** The sequence an Order stores for one argument: the supplied array, or
    [nelem] zeros. *)
Definition stored_array (a : option (list fl)) (n : Z) : list fl :=
  match a with Some xs => xs | None => repeat (Fin 0) (Z.to_nat n) end.

Definition supplied_has_length (a : option (list fl)) (n : Z) : Prop :=
  match a with Some xs => Z.of_nat (length xs) = n | None => True end.

(** The Order a table row describes: its [nelem] and its four arrays. *)
Definition row_order (r : table_row) : order_spectrum :=
  {| nelem := row_nelem r; wavelengths := row_WAVELENGTH r;
     fluxes := row_FLUX r; fluxerrs := row_ERROR r; dqs := row_DQ r |}.

Definition row_sized (r : table_row) : Prop :=
  Z.of_nat (length (row_WAVELENGTH r)) = row_nelem r /\
  Z.of_nat (length (row_FLUX r)) = row_nelem r /\
  Z.of_nat (length (row_ERROR r)) = row_nelem r /\
  Z.of_nat (length (row_DQ r)) = row_nelem r.

(** Sample inputs for the instances at concrete values. *)
Definition sample_row (n : Z) : table_row :=
  {| sporder := 1; row_nelem := n;
     row_WAVELENGTH := repeat (Fin 1500) (Z.to_nat n);
     row_FLUX := repeat (Fin 0) (Z.to_nat n);
     row_ERROR := repeat (Fin 0) (Z.to_nat n);
     row_DQ := repeat (Fin 0) (Z.to_nat n) |}.

Definition is_debug_op (o : op) : bool :=
  match o with
  | DebugOplot _ _ _ _ _ _ _ _ _ | Axvspan _ _ _ => true
  | _ => false
  end.

Ltac fl_cases :=
  repeat match goal with x : fl |- _ => destruct x end;
  simpl in *; rewrite ?Z.leb_le, ?Z.leb_gt in *;
  try discriminate; try reflexivity; try lia.

Ltac list_mem :=
  apply list_elem_of_In; simpl; tauto.

Ltac list_not_mem :=
  let Hin := fresh "Hin" in
  intros Hin; apply list_elem_of_In in Hin; simpl in Hin;
  repeat match goal with
         | H : _ \/ _ |- _ => destruct H as [H | H]
         end; try discriminate; try contradiction.

Definition zero_flux_text (is_bigplot : bool) : string :=
  if is_bigplot then "Fluxes are all 0."
  else "Fluxes are " +:+ newline +:+ " all 0.".

Definition zero_flux_textsize (is_bigplot : bool) : string :=
  if is_bigplot then "x-large" else "small".

Definition sample_stitched (wls : list fl) : gmap string pyval :=
  <["wls" := VArr wls]> (<["fls" := VArr (repeat (Fin 0) (length wls))]>
  (<["flerrs" := VArr (repeat (Fin 0) (length wls))]>
  (<["dqs" := VArr (repeat (Fin 0) (length wls))]>
  (<["title" := VStr "G230LB 2375"]> ∅)))).

Definition all_zero_metrics : gmap string pyval :=
  <["optimal_xaxis_range" := VArr [NaN; NaN]]>
  (<["y_axis_range" := VArr [NaN; NaN]]> ∅).

Definition stitched_keys : list string := ["wls"; "fls"; "flerrs"; "dqs"; "title"].

Definition denied_env : os_env :=
  {| isdir := fun _ => false; mkdir := fun _ => Some (13, "Permission denied") |}.

Definition is_title (o : op) : bool :=
  match o with SetTitle _ _ _ _ => true | _ => false end.

(** Plot metrics with finite optimal x-axis range and every key the valid
    branch reads. *)
Definition sample_metrics : gmap string pyval :=
  <["optimal_xaxis_range" := VArr [Fin 1510; Fin 1590]]>
  (<["y_axis_range" := VArr [Fin 0; Fin 1]]>
  (<["median_flux" := VFloat (Fin 1)]>
  (<["median_fluxerr" := VFloat (Fin 1)]>
  (<["fluxerr_95th" := VFloat (Fin 2)]>
  (<["avoid_regions" := VAvoids [{| minwl := Fin 1540; maxwl := Fin 1550 |}]]>
   ∅))))).

(** Refutes [x ∈ l] for an op list [l] assembled from the pieces above. *)
Ltac ops_not_mem :=
  repeat match goal with
         | H : _ ∈ _ ++ _ |- _ => apply elem_of_app in H as [H | H]
         | H : _ ∈ _ :: _ |- _ => apply elem_of_cons in H as [H | H]
         | H : _ ∈ [] |- _ => apply elem_of_nil in H; contradiction
         | H : _ ∈ map _ _ |- _ =>
             apply list_elem_of_In, in_map_iff in H as [? [H _]]
         | H : _ ∈ (if ?b then _ else _) |- _ => destruct b
         end; try discriminate.

Definition sample_spectrum : stis_spectrum :=
  STIS1DSpectrum [{| orders := [row_order (sample_row 2)] |}]
    (Some "/data/o6ig01020_x1d.fits").

(** An output directory that exists, and one that [os.mkdir] creates. *)
Definition ready_env : os_env :=
  {| isdir := fun _ => true; mkdir := fun _ => None |}.
Definition fresh_env : os_env :=
  {| isdir := fun _ => false; mkdir := fun _ => None |}.

(* ================================================================== *)
(** * Properties *)

(* ------------------------------------------------------------------ *)
(** ** Association selection *)

Lemma py2_round_half (n : Z) :
  0 <= n -> n <= 2 * py2_round_nonneg n 2 <= n + 1.
Proof.
  intros Hn. unfold py2_round_nonneg.
  pose proof (Z.div_mod (2 * n + 2) (2 * 2) ltac:(lia)) as Hdm.
  pose proof (Z.mod_pos_bound (2 * n + 2) (2 * 2) ltac:(lia)) as Hb.
  lia.
Qed.

(** C1: with [N] associations, [get_association_indices] returns
    [0, ..., N-1] when [N <= 3], and otherwise [[0; mid; N-1]] where [mid]
    is [N/2] rounded to the nearest integer with halves rounded up
    ([N <= 2 mid <= N+1]); so [N = 5] gives [[0; 3; 4]] and [N = 7] gives
    [[0; 4; 6]]. *)
Theorem get_association_indices_spec {A : Type} (l : list A) :
  (((length l <= 3)%nat /\
      get_association_indices l = map Z.of_nat (seq 0 (length l)))
   \/ ((3 < length l)%nat /\
      exists mid, get_association_indices l =
                    [0; mid; Z.of_nat (length l) - 1]
                  /\ Z.of_nat (length l) <= 2 * mid <= Z.of_nat (length l) + 1))
  /\ get_association_indices (repeat tt 5) = [0; 3; 4]
  /\ get_association_indices (repeat tt 7) = [0; 4; 6].
Proof.
  split; [|split; reflexivity].
  unfold get_association_indices.
  destruct (Z.of_nat (length l) <=? 3) eqn:E.
  - left. apply Z.leb_le in E. split; [lia|].
    unfold py_range. now rewrite Nat2Z.id.
  - right. apply Z.leb_gt in E. split; [lia|].
    eexists. split; [reflexivity|]. apply py2_round_half. lia.
Qed.

(* ------------------------------------------------------------------ *)
(** ** Orders, associations and spectra *)

Lemma array_or_zeros_ok (a : option (list fl)) (n : Z) (xs : list fl) :
  array_or_zeros a n = Ok xs ->
  xs = stored_array a n /\ (a = None -> 0 <= n).
Proof.
  destruct a as [ys|]; simpl.
  - intros H. inversion H. split; [reflexivity | discriminate].
  - unfold np_zeros. destruct (n <? 0) eqn:E; intros H; inversion H.
    apply Z.ltb_ge in E. auto.
Qed.

Lemma stored_array_length (a : option (list fl)) (n : Z) :
  0 <= n -> supplied_has_length a n ->
  Z.of_nat (length (stored_array a n)) = n.
Proof.
  destruct a as [ys|]; simpl; [auto|].
  intros Hn _. rewrite repeat_length. lia.
Qed.

Lemma supplied_has_length_nonneg (a : option (list fl)) (n : Z) :
  a <> None -> supplied_has_length a n -> 0 <= n.
Proof. destruct a; simpl; [lia | congruence]. Qed.

(** C3 (as the code is): a constructed Order records [nelem] (0 when it
    is not given); each of its four sequences is the array supplied for
    it, or [nelem] zeros when none is supplied.  Supplied arrays are not
    compared with [nelem]; when each supplied array has [nelem] elements,
    all four sequences have length [nelem]. *)
Theorem order_spectrum_arrays (nelem0 : option Z)
  (w f e d : option (list fl)) (o : order_spectrum)
  (H : STISOrderSpectrum nelem0 w f e d = Ok o) :
  nelem o = default_nelem nelem0 /\
  wavelengths o = stored_array w (nelem o) /\
  fluxes o = stored_array f (nelem o) /\
  fluxerrs o = stored_array e (nelem o) /\
  dqs o = stored_array d (nelem o) /\
  (supplied_has_length w (nelem o) -> supplied_has_length f (nelem o) ->
   supplied_has_length e (nelem o) -> supplied_has_length d (nelem o) ->
   Z.of_nat (length (wavelengths o)) = nelem o /\
   Z.of_nat (length (fluxes o)) = nelem o /\
   Z.of_nat (length (fluxerrs o)) = nelem o /\
   Z.of_nat (length (dqs o)) = nelem o).
Proof.
  unfold STISOrderSpectrum in H.
  destruct (array_or_zeros w _) as [wl|] eqn:Ew; [|discriminate]; simpl in H.
  destruct (array_or_zeros f _) as [fx|] eqn:Ef; [|discriminate]; simpl in H.
  destruct (array_or_zeros e _) as [fe|] eqn:Ee; [|discriminate]; simpl in H.
  destruct (array_or_zeros d _) as [dq|] eqn:Ed; [|discriminate]; simpl in H.
  inversion H; subst o; clear H; simpl.
  apply array_or_zeros_ok in Ew as [-> Hw].
  apply array_or_zeros_ok in Ef as [-> Hf].
  apply array_or_zeros_ok in Ee as [-> He].
  apply array_or_zeros_ok in Ed as [-> Hd].
  do 5 (split; [reflexivity|]). intros Lw Lf Le Ld.
  assert (Hn : 0 <= default_nelem nelem0).
  { destruct w as [ws|]; [|auto].
    apply (supplied_has_length_nonneg (Some ws)); [discriminate | exact Lw]. }
  repeat split; apply stored_array_length; assumption.
Qed.

(** C3 counterexample: an Order built with [nelem = 5] and a one element
    wavelength array is constructed, and its wavelengths do not have
    length [nelem]. *)
Lemma order_spectrum_length_mismatch :
  exists o, STISOrderSpectrum (Some 5) (Some [Fin 1]) None None None = Ok o /\
            nelem o = 5 /\ length (wavelengths o) = 1%nat.
Proof. eexists. split; [reflexivity | split; reflexivity]. Qed.

(** C4 (the code): [STIS1DSpectrum] accepts an empty association list,
    and [readspec] on a file whose only HDU is the primary one returns a
    spectrum with no association. *)
Theorem spectrum_without_associations :
  associations (STIS1DSpectrum [] None) = [] /\
  readspec "o8k401010_x1d.fits" [NoTableHDU] =
    Ok {| orig_file := Some "o8k401010_x1d.fits"; associations := [] |}.
Proof. split; reflexivity. Qed.

Lemma readspec_append_nonempty (acc : list exposure_spectrum)
  (o : order_spectrum) (os : list order_spectrum) :
  readspec_append acc (o :: os) = (Ok tt, acc ++ [{| orders := o :: os |}]).
Proof.
  unfold readspec_append, STISExposureSpectrum.
  replace (0 <? Z.of_nat (length (o :: os))) with true
    by (symmetry; apply Z.ltb_lt; simpl; lia).
  reflexivity.
Qed.

(** C6: an Association built from no Order is refused with [ValueError],
    and the list of associations [readspec] is accumulating is left as it
    was (so is the result of the whole read: the error); built from one or
    more Orders it succeeds and stores exactly that list. *)
Theorem exposure_spectrum_construction :
  (forall acc : list exposure_spectrum,
     STISExposureSpectrum [] = Err (ValueError empty_orders_msg) /\
     readspec_append acc [] = (Err (ValueError empty_orders_msg), acc) /\
     (forall rest, readspec_loop acc (BinTableHDU [] :: rest) =
                   Err (ValueError empty_orders_msg))) /\
  (forall (o : order_spectrum) (os : list order_spectrum)
          (acc : list exposure_spectrum),
     STISExposureSpectrum (o :: os) = Ok {| orders := o :: os |} /\
     readspec_append acc (o :: os) =
       (Ok tt, acc ++ [{| orders := o :: os |}])).
Proof.
  split.
  - intros acc. repeat split.
  - intros o os acc. unfold readspec_append, STISExposureSpectrum.
    replace (0 <? Z.of_nat (length (o :: os))) with true
      by (symmetry; apply Z.ltb_lt; simpl; lia).
    split; reflexivity.
Qed.

(* ------------------------------------------------------------------ *)
(** ** [readspec] *)

Lemma orders_of_table (rows : list table_row) :
  orders_of_hdu (BinTableHDU rows) = Ok (map row_order rows).
Proof.
  simpl. induction rows as [|r rows IH]; simpl; [reflexivity|].
  rewrite IH. reflexivity.
Qed.

Lemma readspec_loop_tables (tables : list (list table_row))
  (acc : list exposure_spectrum) :
  Forall (fun rows => rows <> []) tables ->
  readspec_loop acc (map BinTableHDU tables) =
    Ok (acc ++ map (fun rows => {| orders := map row_order rows |}) tables).
Proof.
  revert acc. induction tables as [|rows tables IH]; intros acc Hne;
    cbn [map readspec_loop].
  - now rewrite app_nil_r.
  - inversion Hne as [|? ? Hrows Htl]; subst.
    rewrite orders_of_table.
    destruct rows as [|r rs]; [congruence|].
    cbn [map]. rewrite readspec_append_nonempty.
    rewrite IH by exact Htl. now rewrite <- app_assoc.
Qed.

(** C9: reading a file whose tabular extensions all have at least one
    row gives one Association per extension, in extension order, each
    holding one Order per row, in row order, with the row's [nelem] and
    its four arrays; when a row's arrays have [nelem] elements, so do the
    four sequences of its Order. *)
Theorem readspec_structure (input_file : string) (primary : hdu)
  (tables : list (list table_row))
  (Hrows : Forall (fun rows => rows <> []) tables) :
  exists sp,
    readspec input_file (primary :: map BinTableHDU tables) = Ok sp /\
    orig_file sp = Some input_file /\
    associations sp =
      map (fun rows => {| orders := map row_order rows |}) tables /\
    (Forall (Forall row_sized) tables ->
     forall a o, a ∈ associations sp -> o ∈ orders a ->
       Z.of_nat (length (wavelengths o)) = nelem o /\
       Z.of_nat (length (fluxes o)) = nelem o /\
       Z.of_nat (length (fluxerrs o)) = nelem o /\
       Z.of_nat (length (dqs o)) = nelem o).
Proof.
  unfold readspec.
  change (drop 1 (primary :: map BinTableHDU tables))
    with (map BinTableHDU tables).
  rewrite (readspec_loop_tables tables [] Hrows). simpl.
  eexists. split; [reflexivity|]. cbn.
  split; [reflexivity|]. split; [reflexivity|].
  intros Hsized a o Ha Ho.
  apply list_elem_of_fmap in Ha as [rows [-> Hin]].
  apply list_elem_of_fmap in Ho as [r [-> Hr]].
  rewrite Forall_forall in Hsized.
  specialize (Hsized rows Hin). rewrite Forall_forall in Hsized.
  exact (Hsized r Hr).
Qed.

(** A file with two extensions of one row each gives two Associations of
    one Order each, whose sequences have the row's [nelem] elements. *)
Lemma readspec_structure_witness :
  exists sp,
    readspec "o6ig01020_x1d.fits"
      (NoTableHDU :: map BinTableHDU [[sample_row 3]; [sample_row 2]]) = Ok sp /\
    length (associations sp) = 2%nat /\
    Forall (fun a => length (orders a) = 1%nat) (associations sp) /\
    (forall a o, a ∈ associations sp -> o ∈ orders a ->
       Z.of_nat (length (wavelengths o)) = nelem o /\
       Z.of_nat (length (fluxes o)) = nelem o /\
       Z.of_nat (length (fluxerrs o)) = nelem o /\
       Z.of_nat (length (dqs o)) = nelem o).
Proof.
  destruct (readspec_structure "o6ig01020_x1d.fits" NoTableHDU
              [[sample_row 3]; [sample_row 2]]
              ltac:(repeat constructor; discriminate))
    as [sp [Hread [_ [Hassoc Hsize]]]].
  exists sp. split; [exact Hread|].
  rewrite Hassoc. split; [reflexivity|]. split.
  - repeat constructor.
  - rewrite <- Hassoc. apply Hsize.
    repeat constructor; unfold row_sized; vm_compute; repeat split.
Defined.

(* ------------------------------------------------------------------ *)
(** ** The degenerate ("Fluxes are all 0.") panel and the debug flag *)

Lemma list_get_Some {A} (l : list A) (i : nat) (x : A) :
  l !! i = Some x -> list_get l i = Ok x.
Proof. unfold list_get. now intros ->. Qed.

Lemma dict_get_Some (d : gmap string pyval) (k : string) (v : pyval) :
  d !! k = Some v -> dict_get d k = Ok v.
Proof. unfold dict_get. now intros ->. Qed.

Lemma dict_get_None (d : gmap string pyval) (k : string) :
  d !! k = None -> dict_get d k = Err (KeyError k).
Proof. unfold dict_get. now intros ->. Qed.

Lemma degenerate_no_debug_ops (is_bigplot full_ylabels : bool)
  (all_wls : pyval) (ops : list op) :
  degenerate_branch is_bigplot full_ylabels all_wls = Ok ops ->
  Forall (fun o => is_debug_op o = false) ops.
Proof.
  unfold degenerate_branch, style_ops.
  destruct (nanmin all_wls); [|discriminate]; simpl.
  destruct (nanmax all_wls); [|discriminate]; simpl.
  destruct is_bigplot, full_ylabels; simpl; intros H; inversion H;
    repeat constructor.
Qed.

(** C10: when the optimal x-axis range of the subplot is not finite, the
    subplot is rendered the same way with [debug = True] and
    [debug = False], and none of its calls is the debug overlay or a
    shaded span. *)
Theorem degenerate_subplot_ignores_debug (is_bigplot : bool)
  (n_associations : Z) (association_indices : list Z) (i : nat)
  (full_ylabels : bool) (flux_scale_factor fluxerr_scale_factor : fl)
  (stitched : gmap string pyval) (plot_metrics : list (gmap string pyval))
  (pm : gmap string pyval) (rng : list fl)
  (Hpm : plot_metrics !! i = Some pm)
  (Hrng : pm !! "optimal_xaxis_range" = Some (VArr rng))
  (Hnonfinite : forallb isfinite rng = false) :
  render_assoc is_bigplot n_associations association_indices i true
    full_ylabels flux_scale_factor fluxerr_scale_factor stitched plot_metrics
  = render_assoc is_bigplot n_associations association_indices i false
    full_ylabels flux_scale_factor fluxerr_scale_factor stitched plot_metrics
  /\ forall debug ops,
       render_assoc is_bigplot n_associations association_indices i debug
         full_ylabels flux_scale_factor fluxerr_scale_factor stitched
         plot_metrics = Ok ops ->
       Forall (fun o => is_debug_op o = false) ops.
Proof.
  unfold render_assoc.
  destruct (get_stitched stitched) as [[[[[w f] fe] dq] t]|err]; simpl;
    [|split; [reflexivity | intros; discriminate]].
  destruct ((1 <? n_associations) && is_bigplot);
    [destruct (list_get association_indices i);
     simpl; [|split; [reflexivity | intros; discriminate]]|]; simpl;
  rewrite (list_get_Some _ _ _ Hpm); simpl;
  rewrite (dict_get_Some _ _ _ Hrng); simpl; rewrite Hnonfinite; simpl;
  (split; [reflexivity|]);
  intros debug ops H;
  destruct (degenerate_branch is_bigplot full_ylabels w) as [body|] eqn:E;
  simpl in H; inversion H; subst ops;
  apply degenerate_no_debug_ops in E;
  repeat (apply Forall_app; split); auto;
  destruct is_bigplot; repeat constructor.
Qed.

(* ------------------------------------------------------------------ *)
(** ** [numpy.nanmin] and [numpy.nanmax] *)

Lemma fle_refl (x : fl) : is_nan x = false -> fle x x = true.
Proof. intros. fl_cases. Qed.

Lemma fle_trans (x y z : fl) :
  is_nan y = false -> fle x y = true -> fle y z = true -> fle x z = true.
Proof. intros. fl_cases. Qed.

Lemma fle_total (x y : fl) :
  is_nan x = false -> is_nan y = false -> fle x y = false -> fle y x = true.
Proof.
  intros. fl_cases; destruct (Z.leb_spec z0 z); try lia; reflexivity.
Qed.

(** A left fold of a binary "select one argument" operation picks an
    element of the list below (for [le]) every element of the list. *)
Section FoldSelect.
Variable le : fl -> fl -> bool.
Variable f : fl -> fl -> fl.
Variable P : fl -> Prop.
Hypothesis f_choice : forall x y, f x y = x \/ f x y = y.
Hypothesis f_le_l : forall x y, P x -> P y -> le (f x y) x = true.
Hypothesis f_le_r : forall x y, P x -> P y -> le (f x y) y = true.
Hypothesis le_refl : forall x, P x -> le x x = true.
Hypothesis le_trans : forall x y z,
  P y -> le x y = true -> le y z = true -> le x z = true.

Lemma f_P (x y : fl) : P x -> P y -> P (f x y).
Proof. intros Hx Hy. destruct (f_choice x y) as [-> | ->]; assumption. Qed.

Lemma fold_select (ys : list fl) (y : fl) :
  Forall P (y :: ys) ->
  fold_left f ys y ∈ y :: ys /\ P (fold_left f ys y) /\
  forall w, w ∈ y :: ys -> le (fold_left f ys y) w = true.
Proof.
  revert y. induction ys as [|z zs IH]; intros y HP; simpl.
  - inversion HP; subst. split; [constructor|]. split; [assumption|].
    intros w Hw. apply list_elem_of_singleton in Hw. subst. auto.
  - inversion HP as [|? ? Hy Hrest]; subst.
    inversion Hrest as [|? ? Hz Hzs]; subst.
    destruct (IH (f y z)) as [Hin [HPm Hle]].
    { constructor; [apply f_P; assumption | assumption]. }
    split; [|split; [assumption|]].
    + apply elem_of_cons in Hin as [Hin | Hin].
      * rewrite Hin.
        destruct (f_choice y z) as [Hc | Hc]; rewrite Hc; [left | right; left].
      * right. right. exact Hin.
    + assert (Hm : le (fold_left f zs (f y z)) (f y z) = true)
        by (apply Hle; left).
      intros w Hw. apply elem_of_cons in Hw as [-> | Hw].
      * apply (le_trans _ (f y z)); [apply f_P; assumption | exact Hm | auto].
      * apply elem_of_cons in Hw as [-> | Hw].
        -- apply (le_trans _ (f y z)); [apply f_P; assumption | exact Hm | auto].
        -- apply Hle. right. exact Hw.
Qed.
End FoldSelect.

Lemma nan_reduce_spec (le : fl -> fl -> bool) (f : fl -> fl -> fl)
  (opname : string) (xs : list fl)
  (f_choice : forall x y, f x y = x \/ f x y = y)
  (f_le_l : forall x y, is_nan x = false -> is_nan y = false ->
                        le (f x y) x = true)
  (f_le_r : forall x y, is_nan x = false -> is_nan y = false ->
                        le (f x y) y = true)
  (le_refl : forall x, is_nan x = false -> le x x = true)
  (le_trans : forall x y z, is_nan y = false ->
                le x y = true -> le y z = true -> le x z = true) :
  (exists w, w ∈ xs /\ is_nan w = false) ->
  exists m, nan_reduce f opname (VArr xs) = Ok m /\ m ∈ xs /\
            is_nan m = false /\
            forall w, w ∈ xs -> is_nan w = false -> le m w = true.
Proof.
  intros [w [Hw Hn]].
  destruct xs as [|x xs']; [apply elem_of_nil in Hw; contradiction|].
  assert (Hf : w ∈ filter (fun v => is_nan v = false) (x :: xs'))
    by (apply list_elem_of_filter; auto).
  unfold nan_reduce.
  destruct (filter (fun v => is_nan v = false) (x :: xs')) as [|y ys] eqn:E;
    [apply elem_of_nil in Hf; contradiction|].
  assert (HP : Forall (fun v => is_nan v = false) (y :: ys)).
  { apply Forall_forall. intros v Hv. rewrite <- E in Hv.
    apply list_elem_of_filter in Hv. tauto. }
  destruct (fold_select le f (fun v => is_nan v = false) f_choice f_le_l
              f_le_r le_refl le_trans ys y HP) as [Hin [HPm Hle]].
  eexists. split; [reflexivity|]. split; [|split; [exact HPm|]].
  - rewrite <- E in Hin. apply list_elem_of_filter in Hin. tauto.
  - intros v Hv Hvn. apply Hle. rewrite <- E.
    apply list_elem_of_filter. auto.
Qed.

(** [numpy.nanmin] of an array with a non-NaN entry is one of its non-NaN
    entries, below all of them. *)
Lemma nanmin_spec (xs : list fl) :
  (exists w, w ∈ xs /\ is_nan w = false) ->
  exists lo, nanmin (VArr xs) = Ok lo /\ lo ∈ xs /\ is_nan lo = false /\
             forall w, w ∈ xs -> is_nan w = false -> fle lo w = true.
Proof.
  apply nan_reduce_spec.
  - intros x y. unfold fmin. destruct (fle x y); auto.
  - intros x y Hx Hy. unfold fmin. destruct (fle x y) eqn:E.
    + apply fle_refl; assumption.
    + apply fle_total; assumption.
  - intros x y Hx Hy. unfold fmin. destruct (fle x y) eqn:E;
      [assumption | apply fle_refl; assumption].
  - exact fle_refl.
  - intros x y z Hy. apply fle_trans. exact Hy.
Qed.

(** [numpy.nanmax] of an array with a non-NaN entry is one of its non-NaN
    entries, above all of them. *)
Lemma nanmax_spec (xs : list fl) :
  (exists w, w ∈ xs /\ is_nan w = false) ->
  exists hi, nanmax (VArr xs) = Ok hi /\ hi ∈ xs /\ is_nan hi = false /\
             forall w, w ∈ xs -> is_nan w = false -> fle w hi = true.
Proof.
  apply (nan_reduce_spec (fun a b => fle b a)).
  - intros x y. unfold fmax. destruct (fle x y); auto.
  - intros x y Hx Hy. unfold fmax. destruct (fle x y) eqn:E;
      [assumption | apply fle_refl; assumption].
  - intros x y Hx Hy. unfold fmax. destruct (fle x y) eqn:E.
    + apply fle_refl; assumption.
    + apply fle_total; assumption.
  - exact fle_refl.
  - intros x y z Hy H1 H2. exact (fle_trans z y x Hy H2 H1).
Qed.

(* ------------------------------------------------------------------ *)
(** ** The degenerate panel *)

Lemma get_stitched_ok (st : gmap string pyval) (w f fe dq t : pyval) :
  st !! "wls" = Some w -> st !! "fls" = Some f -> st !! "flerrs" = Some fe ->
  st !! "dqs" = Some dq -> st !! "title" = Some t ->
  get_stitched st = Ok (w, f, fe, dq, t).
Proof.
  intros Hw Hf Hfe Hdq Ht. unfold get_stitched.
  rewrite (dict_get_Some _ _ _ Hw), (dict_get_Some _ _ _ Hf),
    (dict_get_Some _ _ _ Hfe), (dict_get_Some _ _ _ Hdq),
    (dict_get_Some _ _ _ Ht).
  reflexivity.
Qed.

(** C2 (as the code is): when a bound of the optimal x-axis range is not
    finite and the wavelengths have a non-NaN entry, the subplot is the
    degenerate panel in both modes: x limits [numpy.nanmin] and
    [numpy.nanmax] of the wavelengths (the least and greatest non-NaN
    wavelength, infinite ones included), grey background, empty y tick
    labels, the centred "Fluxes are all 0." text, and no flux curve. *)
Theorem degenerate_panel (is_bigplot : bool) (n_associations : Z)
  (association_indices : list Z) (i : nat) (debug full_ylabels : bool)
  (flux_scale_factor fluxerr_scale_factor : fl)
  (stitched : gmap string pyval) (plot_metrics : list (gmap string pyval))
  (pm : gmap string pyval) (rng wls : list fl) (f fe dq t : pyval)
  (Hw : stitched !! "wls" = Some (VArr wls))
  (Hf : stitched !! "fls" = Some f) (Hfe : stitched !! "flerrs" = Some fe)
  (Hdq : stitched !! "dqs" = Some dq) (Ht : stitched !! "title" = Some t)
  (Hidx : is_Some (association_indices !! i))
  (Hpm : plot_metrics !! i = Some pm)
  (Hrng : pm !! "optimal_xaxis_range" = Some (VArr rng))
  (Hnonfinite : forallb isfinite rng = false)
  (Hdata : exists w, w ∈ wls /\ is_nan w = false) :
  exists ops lo hi,
    render_assoc is_bigplot n_associations association_indices i debug
      full_ylabels flux_scale_factor fluxerr_scale_factor stitched
      plot_metrics = Ok ops /\
    nanmin (VArr wls) = Ok lo /\ nanmax (VArr wls) = Ok hi /\
    lo ∈ wls /\ is_nan lo = false /\ hi ∈ wls /\ is_nan hi = false /\
    (forall w, w ∈ wls -> is_nan w = false ->
               fle lo w = true /\ fle w hi = true) /\
    SetXlim lo hi ∈ ops /\
    SetAxisBgcolor "lightgrey" ∈ ops /\
    SetYticklabels [] ∈ ops /\
    TextCentered (zero_flux_text is_bigplot) (zero_flux_textsize is_bigplot)
      ∈ ops /\
    (forall xs ys fmt, Plot xs ys fmt ∉ ops).
Proof.
  destruct (nanmin_spec wls Hdata) as [lo [Hlo [Hlo_in [Hlo_n Hlo_le]]]].
  destruct (nanmax_spec wls Hdata) as [hi [Hhi [Hhi_in [Hhi_n Hhi_le]]]].
  destruct Hidx as [ai Hai].
  unfold render_assoc.
  rewrite (get_stitched_ok _ _ _ _ _ _ Hw Hf Hfe Hdq Ht). simpl.
  destruct ((1 <? n_associations) && is_bigplot);
    [rewrite (list_get_Some _ _ _ Hai)|]; simpl;
  rewrite (list_get_Some _ _ _ Hpm); simpl;
  rewrite (dict_get_Some _ _ _ Hrng); simpl; rewrite Hnonfinite; simpl;
  unfold degenerate_branch, style_ops; rewrite Hlo, Hhi; simpl;
  destruct is_bigplot, full_ylabels; simpl;
  (eexists; exists lo, hi; split; [reflexivity|]);
  (do 6 (split; [assumption|])); (split; [intros w Hw' Hn'; auto|]);
  unfold zero_flux_text, zero_flux_textsize;
  (split; [list_mem|]); (split; [list_mem|]); (split; [list_mem|]);
  (split; [list_mem|]); intros xs ys fmt; list_not_mem.
Qed.

(** C2 counterexample: with an empty wavelength series [numpy.nanmin]
    raises [ValueError] and no panel is drawn; with an infinite wavelength
    the x-axis upper limit is that infinity, not the greatest finite
    wavelength. *)
Lemma degenerate_panel_counterexample :
  render_assoc false 1 [0] 0 false false (Fin 10) (Fin 5)
    (sample_stitched []) [all_zero_metrics]
  = Err (ValueError (zero_size_msg "fmin")) /\
  exists ops,
    render_assoc true 1 [0] 0 false false (Fin 10) (Fin 5)
      (sample_stitched [Fin 1700; PInf]) [all_zero_metrics] = Ok ops /\
    SetXlim (Fin 1700) PInf ∈ ops /\ SetXlim (Fin 1700) (Fin 1700) ∉ ops.
Proof.
  split; [reflexivity|].
  eexists. split; [reflexivity|]. split; [list_mem | list_not_mem].
Qed.

(* ------------------------------------------------------------------ *)
(** ** Output file names *)

Lemma rfind_absent (c : ascii) (l : list ascii) : c ∉ l -> rfind c l = -1.
Proof.
  induction l as [|x xs IH]; intros Hc; simpl; [reflexivity|].
  rewrite IH by (intros H; apply Hc; right; exact H).
  simpl. unfold ascii_eqb. rewrite bool_decide_false; [reflexivity|].
  intros ->. apply Hc. left.
Qed.

Lemma rfind_app_absent (c : ascii) (l1 l2 : list ascii) :
  c ∉ l2 -> rfind c (l1 ++ l2) = rfind c l1.
Proof.
  intros Hc. induction l1 as [|x xs IH]; simpl.
  - apply rfind_absent. exact Hc.
  - rewrite IH. reflexivity.
Qed.

Lemma rfind_last (c : ascii) (d t : list ascii) :
  c ∉ t -> rfind c (d ++ [c] ++ t) = Z.of_nat (length d).
Proof.
  intros Hc. rewrite app_assoc, rfind_app_absent by exact Hc.
  induction d as [|x xs IH]; simpl.
  - unfold ascii_eqb. rewrite bool_decide_true by reflexivity. reflexivity.
  - rewrite IH. replace (0 <=? Z.of_nat (length xs)) with true
      by (symmetry; apply Z.leb_le; lia). lia.
Qed.

Lemma rstrip_slash_snoc (d : list ascii) :
  last d <> Some "/"%char -> rstrip_slash (d ++ ["/"%char]) = d.
Proof.
  intros Hlast. unfold rstrip_slash.
  rewrite reverse_app. simpl.
  destruct (reverse d) as [|x xs] eqn:E.
  - simpl. apply (f_equal reverse) in E. rewrite reverse_involutive in E.
    rewrite E. reflexivity.
  - simpl. unfold ascii_eqb.
    assert (Hx : x <> "/"%char).
    { intros ->. apply Hlast. rewrite <- (reverse_involutive d), E.
      rewrite reverse_cons, last_snoc. reflexivity. }
    rewrite bool_decide_false by exact Hx.
    rewrite <- E. apply reverse_involutive.
Qed.

Lemma path_split_dir_file (d t : list ascii) :
  d <> [] -> last d <> Some "/"%char -> "/"%char ∉ t ->
  path_split (d ++ ["/"%char] ++ t) = (d, t).
Proof.
  intros Hd Hlast Ht. unfold path_split, path_head.
  rewrite rfind_last by exact Ht.
  replace (Z.to_nat (Z.of_nat (length d) + 1)) with (length (d ++ ["/"%char]))
    by (rewrite length_app; simpl; lia).
  rewrite app_assoc, take_app_length, drop_app_length.
  rewrite bool_decide_true by (destruct d; simpl; congruence).
  replace (forallb (fun x => ascii_eqb x "/"%char) (d ++ ["/"%char])) with false.
  - simpl. rewrite rstrip_slash_snoc by exact Hlast. reflexivity.
  - symmetry. apply not_true_is_false. intros Hall.
    apply Hlast. rewrite forallb_app in Hall. apply andb_prop in Hall as [Hall _].
    destruct (last d) as [y|] eqn:Ey.
    + apply last_Some_elem_of in Ey. rewrite forallb_forall in Hall.
      apply list_elem_of_In in Ey. specialize (Hall y Ey).
      unfold ascii_eqb in Hall. apply bool_decide_eq_true in Hall. now subst.
    + apply last_None in Ey. contradiction.
Qed.

Lemma splitext_app (t : list ascii) :
  (splitext t).1 ++ (splitext t).2 = t.
Proof.
  unfold splitext.
  destruct (_ <? _); [destruct (existsb _ _)|]; simpl;
    [apply take_drop | apply app_nil_r | apply app_nil_r].
Qed.

Lemma digit_char_not_slash (d : Z) : digit_char d <> "/"%char.
Proof.
  unfold digit_char.
  destruct (nth_in_or_default (Z.to_nat d) (String.list_ascii_of_string "0123456789") "0"%char)
    as [Hin | ->]; [|discriminate].
  intros Heq. rewrite Heq in Hin. simpl in Hin.
  repeat (destruct Hin as [Hin | Hin]; [discriminate Hin|]). contradiction.
Qed.

Lemma dec_digits_aux_chars (fuel : nat) (n : Z) (acc : list ascii) (x : ascii) :
  x ∈ dec_digits_aux fuel n acc -> x ∈ acc \/ exists d, x = digit_char d.
Proof.
  revert n acc. induction fuel as [|f IH]; intros n acc Hx; simpl in Hx;
    [left; exact Hx|].
  destruct (n <? 10).
  - apply elem_of_cons in Hx as [-> | Hx]; [right; eauto | left; exact Hx].
  - apply IH in Hx as [Hx | Hx]; [|right; exact Hx].
    apply elem_of_cons in Hx as [-> | Hx]; [right; eauto | left; exact Hx].
Qed.

Lemma format_04d_not_slash (n : Z) : "/"%char ∉ format_04d n.
Proof.
  unfold format_04d. intros Hin.
  apply elem_of_app in Hin as [Hin | Hin].
  { destruct (n <? 0); [apply list_elem_of_singleton in Hin; discriminate|].
    apply elem_of_nil in Hin. exact Hin. }
  apply elem_of_app in Hin as [Hin | Hin].
  { apply list_elem_of_In, repeat_spec in Hin. discriminate. }
  unfold dec_digits in Hin. apply dec_digits_aux_chars in Hin as [Hin | [d Hd]].
  - apply elem_of_nil in Hin. exact Hin.
  - symmetry in Hd. exact (digit_char_not_slash d Hd).
Qed.

Lemma dec_digits_aux_length (fuel : nat) (n : Z) (acc : list ascii) (k : nat) :
  0 <= n < 10 ^ Z.of_nat (S k) ->
  (length (dec_digits_aux fuel n acc) <= length acc + S k)%nat.
Proof.
  revert n acc k. induction fuel as [|f IH]; intros n acc k Hn; simpl; [lia|].
  destruct (n <? 10) eqn:E; simpl; [lia|].
  apply Z.ltb_ge in E. destruct k as [|k].
  - simpl in Hn. lia.
  - specialize (IH (n / 10) (digit_char (n mod 10) :: acc) k).
    simpl in IH. enough (0 <= n / 10 < 10 ^ Z.of_nat (S k)) by (apply IH in H; lia).
    split; [apply Z.div_pos; lia|].
    apply Z.div_lt_upper_bound; [lia|].
    replace (10 * 10 ^ Z.of_nat (S k)) with (10 ^ Z.of_nat (S (S k))); [lia|].
    rewrite !Nat2Z.inj_succ, (Z.pow_succ_r 10 (Z.succ _)) by lia. reflexivity.
Qed.

Lemma format_04d_padded (n : Z) :
  0 <= n < 10000 ->
  format_04d n = repeat "0"%char (4 - length (chars (py_str_int n)))
                 ++ chars (py_str_int n) /\
  length (format_04d n) = 4%nat.
Proof.
  intros Hn. unfold format_04d, py_str_int, chars.
  replace (n <? 0) with false by (symmetry; apply Z.ltb_ge; lia).
  rewrite String.list_ascii_of_string_of_list_ascii, Z.abs_eq by lia.
  simpl. split; [reflexivity|].
  assert (Hlen : (length (dec_digits n) <= 4)%nat).
  { unfold dec_digits. pose proof (dec_digits_aux_length
      (S (Z.to_nat (Z.log2 n))) n [] 3
      ltac:(change (10 ^ Z.of_nat 4) with 10000; lia)).
    exact H. }
  rewrite length_app, repeat_length. lia.
Qed.

Lemma revised_no_slash (t : list ascii) (n : Z) :
  "/"%char ∉ t ->
  "/"%char ∉ (splitext t).1 ++ ["_"%char] ++ format_04d n ++ (splitext t).2.
Proof.
  intros Ht Hin. pose proof (splitext_app t) as Happ.
  apply elem_of_app in Hin as [Hin | Hin].
  { apply Ht. rewrite <- Happ. apply elem_of_app. left. exact Hin. }
  apply elem_of_cons in Hin as [Hin | Hin]; [discriminate|].
  apply elem_of_app in Hin as [Hin | Hin].
  { exact (format_04d_not_slash n Hin). }
  apply Ht. rewrite <- Happ. apply elem_of_app. right. exact Hin.
Qed.

(** C7: in file mode the picture is saved under the requested directory,
    with [_] and the pixel size zero-padded to 4 digits inserted before
    the extension of the requested file name: for a directory [d] (not
    ending in [/]) and a file name [t], the saved name is
    [d/<root>_<SSSS><ext>] where [<root><ext> = t] is [os.path.splitext];
    its directory is [d]. *)
Theorem output_file_name (d t : list ascii) (n : Z)
  (Hd : d <> []) (Hlast : last d <> Some "/"%char) (Ht : "/"%char ∉ t) :
  revised_output_file (d ++ ["/"%char] ++ t) n =
    d ++ ["/"%char] ++ (splitext t).1 ++ ["_"%char] ++ format_04d n
      ++ (splitext t).2 /\
  (splitext t).1 ++ (splitext t).2 = t /\
  dirname (d ++ ["/"%char] ++ t) = d /\
  dirname (revised_output_file (d ++ ["/"%char] ++ t) n) = d /\
  (0 <= n < 10000 ->
   format_04d n = repeat "0"%char (4 - length (chars (py_str_int n)))
                  ++ chars (py_str_int n) /\
   length (format_04d n) = 4%nat) /\
  (forall env sp association_indices stitched_spectra output_type
          n_consecutive flux_scale_factor fluxerr_scale_factor plot_metrics
          dpi_val debug full_ylabels ops,
     outcome (plotspec env sp association_indices stitched_spectra
                output_type (of_chars (d ++ ["/"%char] ++ t)) n_consecutive
                flux_scale_factor fluxerr_scale_factor plot_metrics dpi_val n
                debug full_ylabels) = Ok ops ->
     output_type <> "screen" ->
     last ops = Some (SaveFig (of_chars (d ++ ["/"%char] ++ (splitext t).1
                                         ++ ["_"%char] ++ format_04d n
                                         ++ (splitext t).2))
                        output_type dpi_val)).
Proof.
  assert (Hrev : revised_output_file (d ++ ["/"%char] ++ t) n =
    d ++ ["/"%char] ++ (splitext t).1 ++ ["_"%char] ++ format_04d n
      ++ (splitext t).2).
  { unfold revised_output_file. rewrite path_split_dir_file by assumption.
    destruct (splitext t). reflexivity. }
  split; [exact Hrev|]. split; [apply splitext_app|].
  split.
  { unfold dirname. change (path_head (d ++ ["/"%char] ++ t))
      with (path_split (d ++ ["/"%char] ++ t)).1.
    rewrite path_split_dir_file by assumption. reflexivity. }
  split.
  { rewrite Hrev. unfold dirname.
    change (path_head ?p) with (path_split p).1.
    rewrite path_split_dir_file; [reflexivity | assumption | assumption |].
    apply revised_no_slash. exact Ht. }
  split; [apply format_04d_padded|].
  intros env sp ai ss ot nc fsf fesf pms dpi debug fy ops H Hscreen.
  unfold plotspec in H.
  destruct (ensure_output_dir env ot _) as [err_text dir_ok].
  simpl in H. destruct dir_ok as [[]|e]; [|discriminate]; simpl in H.
  destruct (if 128 <? n then _ else _) as [layout|e]; [|discriminate];
    simpl in H.
  destruct (render_loop _ _ _ _ _ _ _ _ _ _) as [axes|e]; [|discriminate];
    simpl in H.
  rewrite bool_decide_true in H by exact Hscreen.
  inversion H; subst ops. clear H.
  unfold chars. rewrite String.list_ascii_of_string_of_list_ascii.
  change (d ++ "/"%char :: t) with (d ++ ["/"%char] ++ t).
  rewrite Hrev, app_comm_cons, !app_assoc, last_snoc. reflexivity.
Qed.

(* ------------------------------------------------------------------ *)
(** ** Creating the output directory *)

(** C8: in file mode, when the output directory does not exist and
    [os.mkdir] fails with [errno] 13 (permission denied), [plotspec] writes
    a message containing "MAKE_HST_SPEC_PREVIEWS ERROR" to stderr and
    raises [SystemExit(1)]; any other [OSError] of [os.mkdir] is re-raised
    unchanged, with nothing written. *)
Theorem output_dir_errors (env : os_env) (sp : stis_spectrum)
  (association_indices : list Z) (stitched_spectra : list (gmap string pyval))
  (output_type output_file : string) (n_consecutive : Z)
  (flux_scale_factor fluxerr_scale_factor : fl)
  (plot_metrics : list (gmap string pyval)) (dpi_val : fl) (output_size : Z)
  (debug full_ylabels : bool)
  (Hscreen : output_type <> "screen")
  (Hnodir : isdir env (of_chars (dirname (chars output_file))) = false) :
  let r := plotspec env sp association_indices stitched_spectra output_type
             output_file n_consecutive flux_scale_factor fluxerr_scale_factor
             plot_metrics dpi_val output_size debug full_ylabels in
  (forall strerror,
     mkdir env (of_chars (dirname (chars output_file))) = Some (13, strerror) ->
     stderr_out r = permission_msg strerror /\
     outcome r = Err (SystemExit 1) /\
     exists pre post,
       stderr_out r = pre +:+ "MAKE_HST_SPEC_PREVIEWS ERROR" +:+ post) /\
  (forall errno strerror,
     mkdir env (of_chars (dirname (chars output_file))) = Some (errno, strerror) ->
     errno <> 13 ->
     stderr_out r = "" /\ outcome r = Err (OSError errno strerror)).
Proof.
  intros r. subst r. unfold plotspec, ensure_output_dir.
  rewrite bool_decide_true by exact Hscreen. rewrite Hnodir.
  split.
  - intros strerror Hmk. rewrite Hmk. simpl.
    split; [reflexivity|]. split; [reflexivity|].
    exists "*** ", (": Output directory could not be created, "
                    +:+ py_repr_str strerror +:+ newline).
    reflexivity.
  - intros errno strerror Hmk Hne. rewrite Hmk.
    replace (errno =? 13) with false by (symmetry; apply Z.eqb_neq; exact Hne).
    split; reflexivity.
Qed.

(* ------------------------------------------------------------------ *)
(** ** Missing keys *)

Lemma get_stitched_missing (st : gmap string pyval) :
  (exists k, k ∈ stitched_keys /\ st !! k = None) ->
  exists k', k' ∈ stitched_keys /\ st !! k' = None /\
             get_stitched st = Err (SpecUtilsError (stitched_format_msg k')).
Proof.
  intros [k [Hk Hnone]]. unfold get_stitched, dict_get.
  destruct (st !! "wls") eqn:E1; simpl;
    [|exists "wls"; split; [list_mem | split; [assumption | reflexivity]]].
  destruct (st !! "fls") eqn:E2; simpl;
    [|exists "fls"; split; [list_mem | split; [assumption | reflexivity]]].
  destruct (st !! "flerrs") eqn:E3; simpl;
    [|exists "flerrs"; split; [list_mem | split; [assumption | reflexivity]]].
  destruct (st !! "dqs") eqn:E4; simpl;
    [|exists "dqs"; split; [list_mem | split; [assumption | reflexivity]]].
  destruct (st !! "title") eqn:E5; simpl;
    [|exists "title"; split; [list_mem | split; [assumption | reflexivity]]].
  exfalso. apply list_elem_of_In in Hk. simpl in Hk.
  repeat (destruct Hk as [Hk | Hk]; [subst k; congruence|]). exact Hk.
Qed.

Lemma get_stitched_first_missing (st : gmap string pyval) (j : nat)
  (k : string) :
  stitched_keys !! j = Some k -> st !! k = None ->
  (forall j' k', (j' < j)%nat -> stitched_keys !! j' = Some k' ->
     is_Some (st !! k')) ->
  get_stitched st = Err (SpecUtilsError (stitched_format_msg k)).
Proof.
  intros Hj Hk Hpre. unfold get_stitched, dict_get.
  destruct j as [|[|[|[|[|j]]]]]; simpl in Hj; try discriminate;
    injection Hj as <-.
  - rewrite Hk. reflexivity.
  - destruct (Hpre 0%nat "wls" ltac:(lia) eq_refl) as [? ->].
    rewrite Hk. reflexivity.
  - destruct (Hpre 0%nat "wls" ltac:(lia) eq_refl) as [? ->].
    destruct (Hpre 1%nat "fls" ltac:(lia) eq_refl) as [? ->].
    rewrite Hk. reflexivity.
  - destruct (Hpre 0%nat "wls" ltac:(lia) eq_refl) as [? ->].
    destruct (Hpre 1%nat "fls" ltac:(lia) eq_refl) as [? ->].
    destruct (Hpre 2%nat "flerrs" ltac:(lia) eq_refl) as [? ->].
    rewrite Hk. reflexivity.
  - destruct (Hpre 0%nat "wls" ltac:(lia) eq_refl) as [? ->].
    destruct (Hpre 1%nat "fls" ltac:(lia) eq_refl) as [? ->].
    destruct (Hpre 2%nat "flerrs" ltac:(lia) eq_refl) as [? ->].
    destruct (Hpre 3%nat "dqs" ltac:(lia) eq_refl) as [? ->].
    rewrite Hk. reflexivity.
Qed.

Lemma dict_get_delete_ne (d : gmap string pyval) (k k' : string) :
  k <> k' -> dict_get (delete k d) k' = dict_get d k'.
Proof. intros Hne. unfold dict_get. rewrite lookup_delete_ne by exact Hne. reflexivity. Qed.

Lemma list_get_insert_same {A} (l : list A) (i : nat) (x y : A) :
  l !! i = Some x -> list_get (<[i:=y]> l) i = Ok y.
Proof.
  intros Hx. apply list_get_Some, list_lookup_insert_eq.
  apply lookup_lt_Some in Hx. exact Hx.
Qed.

(** C5 (as the code is): a key missing from the stitched-spectrum dict
    raises [SpecUtilsError] whose message names the first missing key in
    the order wls, fls, flerrs, dqs, title.  Keys of the plot-metrics dict
    are not wrapped: a missing "optimal_xaxis_range" propagates Python's
    [KeyError] for that key, and the keys the branch taken does not read
    raise nothing: the non-finite branch reads no other key, the finite
    branch without [debug] reads only "y_axis_range" besides, and with
    [debug] "y_axis_range" is never read. *)
Theorem missing_key_errors (is_bigplot : bool) (n_associations : Z)
  (association_indices : list Z) (i : nat) (debug full_ylabels : bool)
  (flux_scale_factor fluxerr_scale_factor : fl)
  (stitched : gmap string pyval) (plot_metrics : list (gmap string pyval)) :
  (forall j k, stitched_keys !! j = Some k -> stitched !! k = None ->
     (forall j' k', (j' < j)%nat -> stitched_keys !! j' = Some k' ->
        is_Some (stitched !! k')) ->
     render_assoc is_bigplot n_associations association_indices i debug
       full_ylabels flux_scale_factor fluxerr_scale_factor stitched
       plot_metrics = Err (SpecUtilsError (stitched_format_msg k))) /\
  (forall pm,
     (forall k, k ∈ stitched_keys -> is_Some (stitched !! k)) ->
     is_Some (association_indices !! i) ->
     plot_metrics !! i = Some pm ->
     pm !! "optimal_xaxis_range" = None ->
     render_assoc is_bigplot n_associations association_indices i debug
       full_ylabels flux_scale_factor fluxerr_scale_factor stitched
       plot_metrics = Err (KeyError "optimal_xaxis_range")) /\
  (forall pm rng,
     plot_metrics !! i = Some pm ->
     pm !! "optimal_xaxis_range" = Some (VArr rng) ->
     forallb isfinite rng = false ->
     render_assoc is_bigplot n_associations association_indices i debug
       full_ylabels flux_scale_factor fluxerr_scale_factor stitched
       plot_metrics =
     render_assoc is_bigplot n_associations association_indices i debug
       full_ylabels flux_scale_factor fluxerr_scale_factor stitched
       (<[i := <["optimal_xaxis_range" := VArr rng]> ∅]> plot_metrics)) /\
  (forall pm rng yr,
     plot_metrics !! i = Some pm ->
     pm !! "optimal_xaxis_range" = Some (VArr rng) ->
     forallb isfinite rng = true ->
     pm !! "y_axis_range" = Some yr ->
     render_assoc is_bigplot n_associations association_indices i false
       full_ylabels flux_scale_factor fluxerr_scale_factor stitched
       plot_metrics =
     render_assoc is_bigplot n_associations association_indices i false
       full_ylabels flux_scale_factor fluxerr_scale_factor stitched
       (<[i := <["optimal_xaxis_range" := VArr rng]>
                 (<["y_axis_range" := yr]> ∅)]> plot_metrics)) /\
  (forall pm,
     plot_metrics !! i = Some pm ->
     render_assoc is_bigplot n_associations association_indices i true
       full_ylabels flux_scale_factor fluxerr_scale_factor stitched
       plot_metrics =
     render_assoc is_bigplot n_associations association_indices i true
       full_ylabels flux_scale_factor fluxerr_scale_factor stitched
       (<[i := delete "y_axis_range" pm]> plot_metrics)).
Proof.
  split; [|split; [|split; [|split]]].
  - intros j k Hj Hk Hpre. unfold render_assoc.
    rewrite (get_stitched_first_missing stitched j k Hj Hk Hpre).
    reflexivity.
  - intros pm Hkeys [ai Hai] Hpm Hrng.
    destruct (Hkeys "wls" ltac:(list_mem)) as [w Hw].
    destruct (Hkeys "fls" ltac:(list_mem)) as [f Hf].
    destruct (Hkeys "flerrs" ltac:(list_mem)) as [fe Hfe].
    destruct (Hkeys "dqs" ltac:(list_mem)) as [dq Hdq].
    destruct (Hkeys "title" ltac:(list_mem)) as [t Ht].
    unfold render_assoc.
    rewrite (get_stitched_ok _ _ _ _ _ _ Hw Hf Hfe Hdq Ht). simpl.
    destruct ((1 <? n_associations) && is_bigplot);
      [rewrite (list_get_Some _ _ _ Hai)|]; simpl;
    rewrite (list_get_Some _ _ _ Hpm); simpl;
    rewrite (dict_get_None _ _ Hrng); reflexivity.
  - intros pm rng Hpm Hrng Hfin. unfold render_assoc.
    rewrite (list_get_Some _ _ _ Hpm), (list_get_insert_same _ _ _ _ Hpm).
    cbn [bind].
    rewrite (dict_get_Some _ _ _ Hrng),
      (dict_get_Some _ _ _ (lookup_insert_eq _ _ _)).
    cbn [bind all_isfinite]. rewrite Hfin. reflexivity.
  - intros pm rng yr Hpm Hrng Hfin Hyr. unfold render_assoc.
    rewrite (list_get_Some _ _ _ Hpm), (list_get_insert_same _ _ _ _ Hpm).
    cbn [bind].
    rewrite (dict_get_Some _ _ _ Hrng),
      (dict_get_Some _ _ _ (lookup_insert_eq _ _ _)).
    cbn [bind all_isfinite]. rewrite Hfin.
    unfold valid_branch. cbn [negb].
    rewrite (dict_get_Some _ _ _ Hyr). reflexivity.
  - intros pm Hpm. unfold render_assoc.
    rewrite (list_get_Some _ _ _ Hpm), (list_get_insert_same _ _ _ _ Hpm).
    cbn [bind]. unfold valid_branch. cbn [negb].
    rewrite !dict_get_delete_ne by discriminate.
    reflexivity.
Qed.

(** C5 counterexample: plot metrics without "optimal_xaxis_range" give a
    bare [KeyError], not [SpecUtilsError]; plot metrics without
    "y_axis_range" (or any debug key) raise nothing in the degenerate
    branch. *)
Lemma missing_key_errors_counterexample :
  render_assoc true 1 [0] 0 false false (Fin 10) (Fin 5)
    (sample_stitched [Fin 1700]) [∅]
  = Err (KeyError "optimal_xaxis_range") /\
  exists ops,
    render_assoc true 1 [0] 0 true false (Fin 10) (Fin 5)
      (sample_stitched [Fin 1700])
      [<["optimal_xaxis_range" := VArr [NaN; NaN]]> ∅] = Ok ops.
Proof. split; [reflexivity | eexists; reflexivity]. Qed.

(* ------------------------------------------------------------------ *)
(** ** Instances at concrete inputs *)

(** [STISOrderSpectrum(nelem=5)] holds four sequences of five zeros. *)
Lemma order_spectrum_arrays_witness :
  exists o, STISOrderSpectrum (Some 5) None None None None = Ok o /\
    nelem o = 5 /\ wavelengths o = repeat (Fin 0) 5 /\
    fluxes o = repeat (Fin 0) 5 /\ fluxerrs o = repeat (Fin 0) 5 /\
    dqs o = repeat (Fin 0) 5 /\
    Z.of_nat (length (wavelengths o)) = 5 /\
    Z.of_nat (length (fluxes o)) = 5 /\
    Z.of_nat (length (fluxerrs o)) = 5 /\ Z.of_nat (length (dqs o)) = 5.
Proof.
  destruct (STISOrderSpectrum (Some 5) None None None None) as [o|e] eqn:H;
    [|discriminate].
  destruct (order_spectrum_arrays (Some 5) None None None None o H)
    as [Hn [Hw [Hf [He [Hd Hlen]]]]].
  exists o. simpl in Hn. rewrite Hn in Hw, Hf, He, Hd, Hlen |- *.
  destruct (Hlen I I I I) as [L1 [L2 [L3 L4]]].
  split; [reflexivity|]. split; [reflexivity|].
  split; [exact Hw|]. split; [exact Hf|]. split; [exact He|].
  split; [exact Hd|]. split; [exact L1|]. split; [exact L2|].
  split; [exact L3 | exact L4].
Defined.

(** An all-zero spectrum with wavelengths 1700 .. 3200 (one NaN) is drawn
    as the grey panel with x limits 1700 and 3200. *)
Lemma degenerate_panel_witness :
  exists ops,
    render_assoc true 2 [0; 1] 0 true false (Fin 10) (Fin 5)
      (sample_stitched [Fin 1700; NaN; Fin 3200])
      [all_zero_metrics; all_zero_metrics] = Ok ops /\
    SetXlim (Fin 1700) (Fin 3200) ∈ ops /\
    SetAxisBgcolor "lightgrey" ∈ ops /\
    TextCentered "Fluxes are all 0." "x-large" ∈ ops.
Proof.
  destruct (degenerate_panel true 2 [0; 1] 0 true false (Fin 10) (Fin 5)
              (sample_stitched [Fin 1700; NaN; Fin 3200])
              [all_zero_metrics; all_zero_metrics] all_zero_metrics
              [NaN; NaN] [Fin 1700; NaN; Fin 3200]
              (VArr [Fin 0; Fin 0; Fin 0]) (VArr [Fin 0; Fin 0; Fin 0])
              (VArr [Fin 0; Fin 0; Fin 0]) (VStr "G230LB 2375")
              eq_refl eq_refl eq_refl eq_refl eq_refl
              ltac:(eexists; reflexivity) eq_refl eq_refl eq_refl
              ltac:(exists (Fin 1700); split; [list_mem | reflexivity]))
    as [ops [lo [hi [Hr [Hlo [Hhi [_ [_ [_ [_ [_ [Hx [Hbg [_ [Htext _]]]]]]]]]]]]]]].
  vm_compute in Hlo, Hhi. injection Hlo as <-. injection Hhi as <-.
  exists ops. split; [exact Hr|]. split; [exact Hx|].
  split; [exact Hbg | exact Htext].
Defined.

(** Both debug settings draw the same degenerate subplot. *)
Lemma degenerate_subplot_ignores_debug_witness :
  render_assoc true 2 [0; 1] 1 true true (Fin 10) (Fin 5)
    (sample_stitched [Fin 1700; Fin 3200])
    [all_zero_metrics; all_zero_metrics]
  = render_assoc true 2 [0; 1] 1 false true (Fin 10) (Fin 5)
    (sample_stitched [Fin 1700; Fin 3200])
    [all_zero_metrics; all_zero_metrics].
Proof.
  apply (degenerate_subplot_ignores_debug true 2 [0; 1] 1 true (Fin 10) (Fin 5)
           (sample_stitched [Fin 1700; Fin 3200])
           [all_zero_metrics; all_zero_metrics] all_zero_metrics [NaN; NaN]
           eq_refl eq_refl eq_refl).
Defined.

(** A stitched spectrum without "flerrs" is reported by name; metrics
    without "optimal_xaxis_range" give [KeyError]. *)
Lemma missing_key_errors_witness :
  render_assoc true 1 [0] 0 false false (Fin 10) (Fin 5)
    (delete "title" (delete "flerrs" (sample_stitched [Fin 1700])))
    [all_zero_metrics]
  = Err (SpecUtilsError (stitched_format_msg "flerrs")) /\
  render_assoc true 1 [0] 0 false false (Fin 10) (Fin 5)
    (sample_stitched [Fin 1700]) [∅] = Err (KeyError "optimal_xaxis_range") /\
  render_assoc true 1 [0] 0 false false (Fin 10) (Fin 5)
    (sample_stitched [Fin 1700]) [all_zero_metrics] =
  render_assoc true 1 [0] 0 false false (Fin 10) (Fin 5)
    (sample_stitched [Fin 1700])
    (<[0%nat := <["optimal_xaxis_range" := VArr [NaN; NaN]]> ∅]>
       [all_zero_metrics]).
Proof.
  destruct (missing_key_errors true 1 [0] 0 false false (Fin 10) (Fin 5)
              (delete "title" (delete "flerrs" (sample_stitched [Fin 1700])))
              [all_zero_metrics]) as [P1 _].
  split.
  { apply (P1 2%nat "flerrs" eq_refl eq_refl).
    intros j' k' Hj' Hk'.
    destruct j' as [|[|j']]; [| |lia]; simpl in Hk'; injection Hk' as <-;
      eexists; reflexivity. }
  destruct (missing_key_errors true 1 [0] 0 false false (Fin 10) (Fin 5)
              (sample_stitched [Fin 1700]) [∅]) as [_ [P2 _]].
  split.
  { apply (P2 ∅); [|eexists; reflexivity | reflexivity | reflexivity].
    intros k Hk. apply list_elem_of_In in Hk. simpl in Hk.
    repeat (destruct Hk as [Hk | Hk]; [subst k; eexists; reflexivity|]).
    contradiction. }
  destruct (missing_key_errors true 1 [0] 0 false false (Fin 10) (Fin 5)
              (sample_stitched [Fin 1700]) [all_zero_metrics])
    as [_ [_ [P3 _]]].
  exact (P3 all_zero_metrics [NaN; NaN] eq_refl eq_refl eq_refl).
Defined.

(** "/data/previews/foo.png" at 256 pixels is saved as
    "/data/previews/foo_0256.png". *)
Lemma output_file_name_witness :
  revised_output_file (chars "/data/previews/foo.png") 256
    = chars "/data/previews/foo_0256.png" /\
  dirname (revised_output_file (chars "/data/previews/foo.png") 256)
    = chars "/data/previews".
Proof.
  destruct (output_file_name (chars "/data/previews") (chars "foo.png") 256
              ltac:(discriminate) ltac:(vm_compute; discriminate)
              ltac:(list_not_mem))
    as [H1 [_ [_ [H4 _]]]].
  change (chars "/data/previews/foo.png")
    with (chars "/data/previews" ++ ["/"%char] ++ chars "foo.png").
  split; [rewrite H1; vm_compute; reflexivity | exact H4].
Defined.

(** Creating "/data/previews" without permission ends the run with exit
    status 1 and the diagnostic on stderr. *)
Lemma output_dir_errors_witness :
  let r := plotspec denied_env (STIS1DSpectrum [] (Some "o6ig01020_x1d.fits"))
             [0] [sample_stitched [Fin 1700]] "png" "/data/previews/foo.png"
             20 (Fin 10) (Fin 5) [all_zero_metrics] (Fin 96) 256 false false in
  outcome r = Err (SystemExit 1) /\
  stderr_out r = permission_msg "Permission denied".
Proof.
  destruct (output_dir_errors denied_env
              (STIS1DSpectrum [] (Some "o6ig01020_x1d.fits")) [0]
              [sample_stitched [Fin 1700]] "png" "/data/previews/foo.png" 20
              (Fin 10) (Fin 5) [all_zero_metrics] (Fin 96) 256 false false
              ltac:(discriminate) eq_refl) as [P1 _].
  destruct (P1 "Permission denied" eq_refl) as [Herr [Hout _]].
  split; [exact Hout | exact Herr].
Defined.

(* ================================================================== *)
(** * Further properties of the module *)

(* ------------------------------------------------------------------ *)
(** ** Association selection *)

Lemma seq_sorted (a n : nat) : Sorted Z.lt (map Z.of_nat (seq a n)).
Proof.
  revert a. induction n as [|n IH]; intros a; simpl; [constructor|].
  constructor; [apply IH|].
  destruct n; simpl; constructor. lia.
Qed.

(** The selected indices are valid, strictly increasing indices into the
    association list, and there are [min N 3] of them. *)
Theorem get_association_indices_valid {A : Type} (l : list A) :
  length (get_association_indices l) = Nat.min (length l) 3 /\
  Forall (fun x => 0 <= x < Z.of_nat (length l)) (get_association_indices l) /\
  Sorted Z.lt (get_association_indices l).
Proof.
  destruct (Nat.le_gt_cases (length l) 3) as [Hle | Hgt];
    unfold get_association_indices.
  - replace (Z.of_nat (length l) <=? 3) with true
      by (symmetry; apply Z.leb_le; lia).
    unfold py_range. rewrite Nat2Z.id.
    split; [rewrite length_map, length_seq; lia|].
    split; [|apply seq_sorted].
    apply Forall_forall. intros x Hx.
    apply list_elem_of_In, in_map_iff in Hx as [k [<- Hk]].
    apply in_seq in Hk. lia.
  - replace (Z.of_nat (length l) <=? 3) with false
      by (symmetry; apply Z.leb_gt; lia).
    pose proof (py2_round_half (Z.of_nat (length l)) ltac:(lia)) as Hm.
    split; [simpl; lia|].
    split; [repeat constructor; lia|].
    repeat constructor; lia.
Qed.

(* ------------------------------------------------------------------ *)
(** ** Reading errors *)

Lemma readspec_loop_tables_app (tables : list (list table_row))
  (acc : list exposure_spectrum) (rest : list hdu) :
  Forall (fun rows => rows <> []) tables ->
  readspec_loop acc (map BinTableHDU tables ++ rest) =
    readspec_loop
      (acc ++ map (fun rows => {| orders := map row_order rows |}) tables) rest.
Proof.
  revert acc. induction tables as [|rows tables IH]; intros acc Hne;
    cbn [map app readspec_loop].
  - now rewrite app_nil_r.
  - inversion Hne as [|? ? Hrows Htl]; subst.
    rewrite orders_of_table.
    destruct rows as [|r rs]; [congruence|].
    cbn [map]. rewrite readspec_append_nonempty.
    rewrite IH by exact Htl. now rewrite <- app_assoc.
Qed.

(** Reading stops at the first extension that is an empty table
    ([ValueError] from [STISExposureSpectrum]) or has no table data
    ([TypeError]); no spectrum is returned. *)
Theorem readspec_errors (input_file : string) (primary : hdu)
  (tables : list (list table_row)) (rest : list hdu)
  (Hrows : Forall (fun rows => rows <> []) tables) :
  readspec input_file
    (primary :: map BinTableHDU tables ++ BinTableHDU [] :: rest)
    = Err (ValueError empty_orders_msg) /\
  readspec input_file (primary :: map BinTableHDU tables ++ NoTableHDU :: rest)
    = Err TypeError.
Proof.
  unfold readspec.
  change (drop 1 (primary :: ?l)) with l.
  rewrite !(readspec_loop_tables_app tables [] _ Hrows).
  split; reflexivity.
Qed.

Lemma readspec_errors_witness :
  readspec "o6ig01020_x1d.fits"
    (NoTableHDU :: map BinTableHDU [[sample_row 2]] ++ BinTableHDU []
       :: [BinTableHDU [sample_row 3]])
  = Err (ValueError empty_orders_msg).
Proof.
  apply (readspec_errors "o6ig01020_x1d.fits" NoTableHDU [[sample_row 2]]
           [BinTableHDU [sample_row 3]] ltac:(repeat constructor; discriminate)).
Defined.

(* ------------------------------------------------------------------ *)
(** ** Orders with a negative element count *)

(** A negative [nelem] is refused (by [numpy.zeros]) only when one of the
    four arrays has to be zero-filled; when all four are supplied the
    Order is built with that negative [nelem]. *)
Theorem order_spectrum_negative_nelem (n : Z) (Hn : n < 0) :
  (forall w f e d, (w = None \/ f = None \/ e = None \/ d = None) ->
     STISOrderSpectrum (Some n) w f e d =
       Err (ValueError "negative dimensions are not allowed")) /\
  (forall ws fs es ds,
     STISOrderSpectrum (Some n) (Some ws) (Some fs) (Some es) (Some ds) =
       Ok {| nelem := n; wavelengths := ws; fluxes := fs; fluxerrs := es;
             dqs := ds |}).
Proof.
  assert (Hlt : (n <? 0) = true) by (apply Z.ltb_lt; exact Hn).
  split; [|reflexivity].
  intros w f e d Hnone.
  destruct w, f, e, d; unfold STISOrderSpectrum; simpl;
    unfold np_zeros; rewrite ?Hlt; simpl; try reflexivity;
    intuition discriminate.
Qed.

Lemma order_spectrum_negative_nelem_witness :
  STISOrderSpectrum (Some (-1)) None (Some []) (Some []) (Some []) =
    Err (ValueError "negative dimensions are not allowed") /\
  STISOrderSpectrum (Some (-1)) (Some []) (Some []) (Some []) (Some []) =
    Ok {| nelem := -1; wavelengths := []; fluxes := []; fluxerrs := [];
          dqs := [] |}.
Proof.
  destruct (order_spectrum_negative_nelem (-1) ltac:(lia)) as [P1 P2].
  split; [apply P1; left; reflexivity | apply P2].
Defined.

(* ------------------------------------------------------------------ *)
(** ** Shape of a rendered subplot *)

Lemma bind_Ok_inv {A B} (m : result A) (k : A -> result B) (b : B) :
  bind m k = Ok b -> exists a, m = Ok a /\ k a = Ok b.
Proof. destruct m as [a|e]; simpl; [eauto | discriminate]. Qed.

Lemma dict_get_Ok_inv (d : gmap string pyval) (k : string) (v : pyval) :
  dict_get d k = Ok v -> d !! k = Some v.
Proof. unfold dict_get. destruct (d !! k); congruence. Qed.

Lemma list_get_Ok_inv {A} (l : list A) (i : nat) (x : A) :
  list_get l i = Ok x -> l !! i = Some x.
Proof. unfold list_get. destruct (l !! i); congruence. Qed.

Lemma as_avoid_regions_Ok_inv (v : pyval) (ars : list avoid_region) :
  as_avoid_regions v = Ok ars -> v = VAvoids ars.
Proof. destruct v; simpl; congruence. Qed.

Lemma get_stitched_Ok_inv (st : gmap string pyval) (w f fe dq t : pyval) :
  get_stitched st = Ok (w, f, fe, dq, t) ->
  st !! "wls" = Some w /\ st !! "fls" = Some f /\ st !! "flerrs" = Some fe /\
  st !! "dqs" = Some dq /\ st !! "title" = Some t.
Proof.
  unfold get_stitched, dict_get.
  destruct (st !! "wls"), (st !! "fls"), (st !! "flerrs"), (st !! "dqs"),
    (st !! "title"); simpl; intros H; try discriminate.
  injection H as -> -> -> -> ->. auto.
Qed.

Lemma valid_branch_shape (is_bigplot debug full_ylabels : bool)
  (fsf fesf : fl) (w f fe dq : pyval) (pm : gmap string pyval) (rng : pyval)
  (ops : list op) :
  valid_branch is_bigplot debug full_ylabels fsf fesf w f fe dq pm rng = Ok ops ->
  exists dbg sty ylim,
    ops = [Plot w f "b"; Grid true] ++ dbg ++ [SetXlimAuto] ++ sty ++ ylim /\
    style_ops is_bigplot full_ylabels w = Ok sty /\
    (debug = false ->
       dbg = [] /\ exists yr, pm !! "y_axis_range" = Some yr /\ ylim = [SetYlim yr]) /\
    (debug = true ->
       ylim = [] /\
       exists mf mfe fe95 lo hi r0 r1 ars,
         pm !! "median_flux" = Some mf /\ pm !! "median_fluxerr" = Some mfe /\
         pm !! "fluxerr_95th" = Some fe95 /\
         nanmin w = Ok lo /\ nanmax w = Ok hi /\
         arr_get rng 0 = Ok r0 /\ arr_get rng 1 = Ok r1 /\
         pm !! "avoid_regions" = Some (VAvoids ars) /\
         dbg = [DebugOplot w f fe dq mf mfe fsf fesf fe95;
                grey_span lo r0; grey_span r1 hi]
               ++ map (fun ar => grey_span (minwl ar) (maxwl ar)) ars).
Proof.
  unfold valid_branch. intros H.
  apply bind_Ok_inv in H as [dbg [Hdbg H]].
  apply bind_Ok_inv in H as [sty [Hsty H]].
  apply bind_Ok_inv in H as [yl [Hyl H]].
  injection H as <-. exists dbg, sty, yl.
  split; [reflexivity|]. split; [exact Hsty|].
  destruct debug; cbn [negb] in Hyl; split; intros Hd; try discriminate.
  - injection Hyl as <-. split; [reflexivity|].
    apply bind_Ok_inv in Hdbg as [mf [Hmf Hdbg]].
    apply bind_Ok_inv in Hdbg as [mfe [Hmfe Hdbg]].
    apply bind_Ok_inv in Hdbg as [fe95 [Hfe95 Hdbg]].
    apply bind_Ok_inv in Hdbg as [lo [Hlo Hdbg]].
    apply bind_Ok_inv in Hdbg as [r0 [Hr0 Hdbg]].
    apply bind_Ok_inv in Hdbg as [r1 [Hr1 Hdbg]].
    apply bind_Ok_inv in Hdbg as [hi [Hhi Hdbg]].
    apply bind_Ok_inv in Hdbg as [v [Hv Hdbg]].
    apply bind_Ok_inv in Hdbg as [ars [Hars Hdbg]].
    injection Hdbg as <-.
    apply as_avoid_regions_Ok_inv in Hars as ->.
    exists mf, mfe, fe95, lo, hi, r0, r1, ars.
    repeat split; try assumption; apply dict_get_Ok_inv; assumption.
  - injection Hdbg as <-. split; [reflexivity|].
    apply bind_Ok_inv in Hyl as [yr [Hyr Hyl]]. injection Hyl as <-.
    exists yr. split; [apply dict_get_Ok_inv; exact Hyr | reflexivity].
Qed.

Lemma degenerate_branch_shape (is_bigplot full_ylabels : bool) (w : pyval)
  (ops : list op) :
  degenerate_branch is_bigplot full_ylabels w = Ok ops ->
  exists lo hi sty,
    nanmin w = Ok lo /\ nanmax w = Ok hi /\
    style_ops is_bigplot full_ylabels w = Ok sty /\
    ops = [SetXlim lo hi; SetAxisBgcolor "lightgrey"; SetYticklabels []]
          ++ sty ++ [TextCentered (zero_flux_text is_bigplot)
                       (zero_flux_textsize is_bigplot)].
Proof.
  unfold degenerate_branch. intros H.
  apply bind_Ok_inv in H as [lo [Hlo H]].
  apply bind_Ok_inv in H as [hi [Hhi H]].
  apply bind_Ok_inv in H as [sty [Hsty H]].
  exists lo, hi, sty. repeat split; try assumption.
  destruct is_bigplot; simpl in H; injection H as <-; reflexivity.
Qed.

Lemma style_ops_shape (is_bigplot full_ylabels : bool) (w : pyval)
  (sty : list op) :
  style_ops is_bigplot full_ylabels w = Ok sty ->
  (is_bigplot = false ->
     exists lo hi, nanmin w = Ok lo /\ nanmax w = Ok hi /\
       sty = [RcFont 10; SetXticks [lo; hi]; SetXticklabelsRotated;
              SetXFormatter "%6.1f"]) /\
  (is_bigplot = true ->
     sty = [RcDefaults; TickParamsX 14;
            SetXlabel "Wavelength $(\AA)$" 16;
            SetYlabel "Flux $\mathrm{(erg/s/cm^2\!/\AA)}$" 16]
           ++ (if full_ylabels then [SetYFormatter "%3.2E"] else [])).
Proof.
  unfold style_ops. intros H.
  destruct is_bigplot; cbn [negb] in H; split; intros Hb; try discriminate.
  - injection H as <-. reflexivity.
  - apply bind_Ok_inv in H as [lo [Hlo H]].
    apply bind_Ok_inv in H as [hi [Hhi H]].
    injection H as <-. exists lo, hi. auto.
Qed.

Lemma render_assoc_shape (is_bigplot : bool) (n_associations : Z)
  (association_indices : list Z) (i : nat) (debug full_ylabels : bool)
  (fsf fesf : fl) (stitched : gmap string pyval)
  (plot_metrics : list (gmap string pyval)) (ops : list op) :
  render_assoc is_bigplot n_associations association_indices i debug
    full_ylabels fsf fesf stitched plot_metrics = Ok ops ->
  exists w f fe dq t assoc pm rng fin body,
    get_stitched stitched = Ok (w, f, fe, dq, t) /\
    (((1 <? n_associations) && is_bigplot = false /\ assoc = []) \/
     exists a, (1 <? n_associations) && is_bigplot = true /\
       association_indices !! i = Some a /\
       assoc = [SetTitle (VStr ("Association " +:+ py_str_int (a + 1) +:+ "/"
                                +:+ py_str_int n_associations))
                  "center" "small" "black"]) /\
    plot_metrics !! i = Some pm /\
    pm !! "optimal_xaxis_range" = Some rng /\
    all_isfinite rng = Ok fin /\
    (if fin then valid_branch is_bigplot debug full_ylabels fsf fesf w f fe dq
                   pm rng
     else degenerate_branch is_bigplot full_ylabels w) = Ok body /\
    ops = (if is_bigplot then [SetTitle t "right" "small" "red"] else [])
          ++ assoc ++ body.
Proof.
  unfold render_assoc. intros H.
  apply bind_Ok_inv in H as [[[[[w f] fe] dq] t] [Hg H]].
  cbv beta iota in H.
  apply bind_Ok_inv in H as [assoc [Hassoc H]].
  apply bind_Ok_inv in H as [pm [Hpm H]].
  apply bind_Ok_inv in H as [rng [Hrng H]].
  apply bind_Ok_inv in H as [fin [Hfin H]].
  apply bind_Ok_inv in H as [body [Hbody H]].
  injection H as <-.
  exists w, f, fe, dq, t, assoc, pm, rng, fin, body.
  split; [exact Hg|]. split.
  - destruct ((1 <? n_associations) && is_bigplot) eqn:E.
    + right. apply bind_Ok_inv in Hassoc as [a [Ha Hassoc]].
      injection Hassoc as <-. exists a.
      split; [reflexivity|]. split; [apply list_get_Ok_inv; exact Ha|reflexivity].
    + left. injection Hassoc as <-. auto.
  - split; [apply list_get_Ok_inv; exact Hpm|].
    split; [apply dict_get_Ok_inv; exact Hrng|].
    auto.
Qed.

Lemma map_grey_span_debug (ars : list avoid_region) :
  Forall (fun o => is_debug_op o = true)
    (map (fun ar => grey_span (minwl ar) (maxwl ar)) ars).
Proof. induction ars; simpl; constructor; auto. Qed.

Lemma map_grey_span_no_title (ars : list avoid_region) :
  Forall (fun o => is_title o = false)
    (map (fun ar => grey_span (minwl ar) (maxwl ar)) ars).
Proof. induction ars; simpl; constructor; auto. Qed.

Lemma style_ops_plain (is_bigplot full_ylabels : bool) (w : pyval)
  (sty : list op) :
  style_ops is_bigplot full_ylabels w = Ok sty ->
  Forall (fun o => is_title o = false /\ is_debug_op o = false) sty.
Proof.
  intros H. destruct (style_ops_shape _ _ _ _ H) as [Hs Hb].
  destruct is_bigplot.
  - rewrite (Hb eq_refl). destruct full_ylabels; repeat constructor.
  - destruct (Hs eq_refl) as [lo [hi [_ [_ ->]]]]. repeat constructor.
Qed.

Lemma filter_debug_none (l : list op) :
  Forall (fun o => is_debug_op o = false) l ->
  filter (fun o => is_debug_op o = true) l = [].
Proof.
  induction 1 as [|o l Ho _ IH]; [reflexivity|].
  rewrite filter_cons, decide_False; [exact IH | congruence].
Qed.

Lemma filter_debug_all (l : list op) :
  Forall (fun o => is_debug_op o = true) l ->
  filter (fun o => is_debug_op o = true) l = l.
Proof.
  induction 1 as [|o l Ho _ IH]; [reflexivity|].
  rewrite filter_cons, decide_True by exact Ho. now rewrite IH.
Qed.

Lemma body_no_title (is_bigplot debug full_ylabels : bool) (fsf fesf : fl)
  (w f fe dq : pyval) (pm : gmap string pyval) (rng : pyval) (fin : bool)
  (body : list op) :
  (if fin then valid_branch is_bigplot debug full_ylabels fsf fesf w f fe dq
                 pm rng
   else degenerate_branch is_bigplot full_ylabels w) = Ok body ->
  Forall (fun o => is_title o = false) body.
Proof.
  intros H. destruct fin.
  - destruct (valid_branch_shape _ _ _ _ _ _ _ _ _ _ _ _ H)
      as [dbg [sty [yl [-> [Hsty [Hnd Hd]]]]]].
    pose proof (style_ops_plain _ _ _ _ Hsty) as Hp.
    repeat (apply Forall_app; split); try (repeat constructor; fail).
    + destruct debug.
      * destruct (Hd eq_refl) as [_ [mf [mfe [fe95 [lo [hi [r0 [r1 [ars
          [_ [_ [_ [_ [_ [_ [_ [_ ->]]]]]]]]]]]]]]]]].
        apply Forall_app; split; [repeat constructor|].
        apply map_grey_span_no_title.
      * destruct (Hnd eq_refl) as [-> _]. constructor.
    + eapply Forall_impl; [exact Hp | simpl; tauto].
    + destruct debug.
      * destruct (Hd eq_refl) as [-> _]. constructor.
      * destruct (Hnd eq_refl) as [_ [yr [_ ->]]]. repeat constructor.
  - destruct (degenerate_branch_shape _ _ _ _ H) as [lo [hi [sty [_ [_ [Hsty ->]]]]]].
    pose proof (style_ops_plain _ _ _ _ Hsty) as Hp.
    repeat (apply Forall_app; split); try (repeat constructor; fail).
    eapply Forall_impl; [exact Hp | simpl; tauto].
Qed.

Lemma render_valid_shape (is_bigplot : bool) (n_associations : Z)
  (association_indices : list Z) (i : nat) (debug full_ylabels : bool)
  (fsf fesf : fl) (stitched : gmap string pyval)
  (plot_metrics : list (gmap string pyval)) (ops : list op)
  (pm : gmap string pyval) (rng : list fl) :
  render_assoc is_bigplot n_associations association_indices i debug
    full_ylabels fsf fesf stitched plot_metrics = Ok ops ->
  plot_metrics !! i = Some pm ->
  pm !! "optimal_xaxis_range" = Some (VArr rng) ->
  forallb isfinite rng = true ->
  exists w f fe dq t assoc body,
    get_stitched stitched = Ok (w, f, fe, dq, t) /\
    (((1 <? n_associations) && is_bigplot = false /\ assoc = []) \/
     exists a, (1 <? n_associations) && is_bigplot = true /\
       association_indices !! i = Some a /\
       assoc = [SetTitle (VStr ("Association " +:+ py_str_int (a + 1) +:+ "/"
                                +:+ py_str_int n_associations))
                  "center" "small" "black"]) /\
    valid_branch is_bigplot debug full_ylabels fsf fesf w f fe dq pm
      (VArr rng) = Ok body /\
    ops = (if is_bigplot then [SetTitle t "right" "small" "red"] else [])
          ++ assoc ++ body.
Proof.
  intros Hr Hpm Hrng Hfin.
  destruct (render_assoc_shape _ _ _ _ _ _ _ _ _ _ _ Hr)
    as [w [f [fe [dq [t [assoc [pm' [rng' [fin [body
       [Hg [Ha [Hpm' [Hrng' [Hf [Hb ->]]]]]]]]]]]]]]]].
  rewrite Hpm in Hpm'. injection Hpm' as <-.
  rewrite Hrng in Hrng'. injection Hrng' as <-.
  simpl in Hf. rewrite Hfin in Hf. injection Hf as <-.
  exists w, f, fe, dq, t, assoc, body. auto.
Qed.

Lemma assoc_plain (n_associations : Z) (is_bigplot : bool)
  (association_indices : list Z) (i : nat) (assoc : list op) :
  (((1 <? n_associations) && is_bigplot = false /\ assoc = []) \/
   exists a, (1 <? n_associations) && is_bigplot = true /\
     association_indices !! i = Some a /\
     assoc = [SetTitle (VStr ("Association " +:+ py_str_int (a + 1) +:+ "/"
                              +:+ py_str_int n_associations))
                "center" "small" "black"]) ->
  Forall (fun o => is_debug_op o = false) assoc.
Proof.
  intros [[_ ->] | [a [_ [_ ->]]]]; repeat constructor.
Qed.



(** The association title: it is read from [association_indices] only for
    a big plot of a spectrum with more than one association; there a
    missing index raises [IndexError], and a rendered subplot's second
    title is "Association <index+1>/<N>". *)
Theorem subplot_association_title (is_bigplot : bool) (n_associations : Z)
  (i : nat) (debug full_ylabels : bool) (fsf fesf : fl)
  (stitched : gmap string pyval) (plot_metrics : list (gmap string pyval)) :
  ((is_bigplot = false \/ n_associations <= 1) ->
   forall ai1 ai2,
     render_assoc is_bigplot n_associations ai1 i debug full_ylabels fsf fesf
       stitched plot_metrics =
     render_assoc is_bigplot n_associations ai2 i debug full_ylabels fsf fesf
       stitched plot_metrics) /\
  (is_bigplot = true -> 1 < n_associations ->
   forall association_indices,
   (exists w f fe dq t, get_stitched stitched = Ok (w, f, fe, dq, t)) ->
   association_indices !! i = None ->
   render_assoc is_bigplot n_associations association_indices i debug
     full_ylabels fsf fesf stitched plot_metrics = Err IndexError) /\
  (is_bigplot = true -> 1 < n_associations ->
   forall association_indices ops,
   render_assoc is_bigplot n_associations association_indices i debug
     full_ylabels fsf fesf stitched plot_metrics = Ok ops ->
   exists a, association_indices !! i = Some a /\
     ops !! 1%nat = Some (SetTitle (VStr ("Association " +:+ py_str_int (a + 1)
                                      +:+ "/" +:+ py_str_int n_associations))
                        "center" "small" "black")).
Proof.
  split; [|split].
  - intros Hc ai1 ai2.
    assert (E : (1 <? n_associations) && is_bigplot = false).
    { destruct Hc as [-> | Hn]; [apply andb_false_r|].
      replace (1 <? n_associations) with false
        by (symmetry; apply Z.ltb_ge; lia).
      reflexivity. }
    unfold render_assoc.
    destruct (get_stitched stitched) as [[[[[w f] fe] dq] t]|e];
      [|reflexivity].
    cbn [bind]. rewrite E. reflexivity.
  - intros -> Hn ai [w [f [fe [dq [t Hg]]]]] Hai.
    unfold render_assoc. rewrite Hg. cbn [bind].
    replace ((1 <? n_associations) && true) with true
      by (symmetry; rewrite andb_true_r; apply Z.ltb_lt; lia).
    unfold list_get. rewrite Hai. reflexivity.
  - intros -> Hn ai ops Hr.
    destruct (render_assoc_shape _ _ _ _ _ _ _ _ _ _ _ Hr)
      as [w [f [fe [dq [t [assoc [pm [rng [fin [body
         [_ [Ha [_ [_ [_ [_ ->]]]]]]]]]]]]]]]].
    destruct Ha as [[E _] | [a [_ [Hai ->]]]].
    + rewrite andb_true_r in E. apply Z.ltb_ge in E. lia.
    + exists a. split; [exact Hai | reflexivity].
Qed.

(** The y-axis of a subplot with a finite optimal x-axis range: the flux
    curve is drawn; without [debug] the last call sets the y limits to the
    metrics' [y_axis_range]; with [debug] the y limits are never set. *)
Theorem subplot_y_range (is_bigplot : bool) (n_associations : Z)
  (association_indices : list Z) (i : nat) (debug full_ylabels : bool)
  (fsf fesf : fl) (stitched : gmap string pyval)
  (plot_metrics : list (gmap string pyval)) (ops : list op)
  (pm : gmap string pyval) (rng : list fl)
  (Hr : render_assoc is_bigplot n_associations association_indices i debug
          full_ylabels fsf fesf stitched plot_metrics = Ok ops)
  (Hpm : plot_metrics !! i = Some pm)
  (Hrng : pm !! "optimal_xaxis_range" = Some (VArr rng))
  (Hfin : forallb isfinite rng = true) :
  (exists w f, stitched !! "wls" = Some w /\ stitched !! "fls" = Some f /\
               Plot w f "b" ∈ ops) /\
  (debug = false ->
   exists yr, pm !! "y_axis_range" = Some yr /\ last ops = Some (SetYlim yr)) /\
  (debug = true -> forall yr, SetYlim yr ∉ ops).
Proof.
  destruct (render_valid_shape _ _ _ _ _ _ _ _ _ _ _ _ _ Hr Hpm Hrng Hfin)
    as [w [f [fe [dq [t [assoc [body [Hg [Ha [Hb ->]]]]]]]]]].
  destruct (get_stitched_Ok_inv _ _ _ _ _ _ Hg) as [Hw [Hf _]].
  destruct (valid_branch_shape _ _ _ _ _ _ _ _ _ _ _ _ Hb)
    as [dbg [sty [yl [-> [Hsty [Hnd Hd]]]]]].
  split; [|split].
  - exists w, f. split; [exact Hw|]. split; [exact Hf|].
    apply elem_of_app; right. apply elem_of_app; right.
    apply elem_of_app; left. apply elem_of_cons; left; reflexivity.
  - intros Hdb. destruct (Hnd Hdb) as [_ [yr [Hyr ->]]].
    exists yr. split; [exact Hyr|].
    rewrite !app_assoc. apply last_snoc.
  - intros Hdb yr Hin. destruct (Hd Hdb) as [-> [mf [mfe [fe95 [lo [hi [r0
      [r1 [ars [_ [_ [_ [_ [_ [_ [_ [_ ->]]]]]]]]]]]]]]]]].
    destruct (style_ops_shape _ _ _ _ Hsty) as [Hs Hbig].
    destruct Ha as [[_ ->] | [a [_ [_ ->]]]];
      destruct is_bigplot;
      [rewrite (Hbig eq_refl) in Hin | destruct (Hs eq_refl) as [l [h [_ [_ ->]]]]
      |rewrite (Hbig eq_refl) in Hin | destruct (Hs eq_refl) as [l [h [_ [_ ->]]]]];
      ops_not_mem.
Qed.

(** The debug overlay of a subplot with a finite optimal x-axis range:
    without [debug] there is none; with [debug] it is, in this order, the
    [debug_oplot] call with the metrics' median flux, median flux error
    and 95th percentile, a grey span from [nanmin] of the wavelengths to
    the range's first bound, one from its second bound to [nanmax], and one
    span per avoid region. *)
Theorem subplot_debug_overlay (is_bigplot : bool) (n_associations : Z)
  (association_indices : list Z) (i : nat) (debug full_ylabels : bool)
  (fsf fesf : fl) (stitched : gmap string pyval)
  (plot_metrics : list (gmap string pyval)) (ops : list op)
  (pm : gmap string pyval) (rng : list fl)
  (Hr : render_assoc is_bigplot n_associations association_indices i debug
          full_ylabels fsf fesf stitched plot_metrics = Ok ops)
  (Hpm : plot_metrics !! i = Some pm)
  (Hrng : pm !! "optimal_xaxis_range" = Some (VArr rng))
  (Hfin : forallb isfinite rng = true) :
  (debug = false -> filter (fun o => is_debug_op o = true) ops = []) /\
  (debug = true ->
   exists w f fe dq mf mfe fe95 lo hi r0 r1 ars,
     stitched !! "wls" = Some w /\ stitched !! "fls" = Some f /\
     stitched !! "flerrs" = Some fe /\ stitched !! "dqs" = Some dq /\
     pm !! "median_flux" = Some mf /\ pm !! "median_fluxerr" = Some mfe /\
     pm !! "fluxerr_95th" = Some fe95 /\
     nanmin w = Ok lo /\ nanmax w = Ok hi /\
     rng !! 0%nat = Some r0 /\ rng !! 1%nat = Some r1 /\
     pm !! "avoid_regions" = Some (VAvoids ars) /\
     filter (fun o => is_debug_op o = true) ops =
       [DebugOplot w f fe dq mf mfe fsf fesf fe95;
        Axvspan lo r0 "lightgrey"; Axvspan r1 hi "lightgrey"]
       ++ map (fun ar => Axvspan (minwl ar) (maxwl ar) "lightgrey") ars).
Proof.
  destruct (render_valid_shape _ _ _ _ _ _ _ _ _ _ _ _ _ Hr Hpm Hrng Hfin)
    as [w [f [fe [dq [t [assoc [body [Hg [Ha [Hb ->]]]]]]]]]].
  destruct (get_stitched_Ok_inv _ _ _ _ _ _ Hg) as [Hw [Hf [Hfe [Hdq _]]]].
  destruct (valid_branch_shape _ _ _ _ _ _ _ _ _ _ _ _ Hb)
    as [dbg [sty [yl [-> [Hsty [Hnd Hd]]]]]].
  assert (Ht : filter (fun o => is_debug_op o = true)
                 (if is_bigplot then [SetTitle t "right" "small" "red"] else [])
               = []) by (destruct is_bigplot; reflexivity).
  assert (Hs : filter (fun o => is_debug_op o = true) sty = []).
  { apply filter_debug_none.
    eapply Forall_impl; [exact (style_ops_plain _ _ _ _ Hsty) | tauto]. }
  assert (Hav : filter (fun o => is_debug_op o = true) assoc = [])
    by exact (filter_debug_none _ (assoc_plain _ _ _ _ _ Ha)).
  rewrite !filter_app, Ht, Hav, Hs.
  split.
  - intros Hdb. destruct (Hnd Hdb) as [-> [yr [_ ->]]]. reflexivity.
  - intros Hdb. destruct (Hd Hdb) as [-> [mf [mfe [fe95 [lo [hi [r0
      [r1 [ars [Hmf [Hmfe [Hfe95 [Hlo [Hhi [Hr0 [Hr1 [Hars ->]]]]]]]]]]]]]]]]].
    exists w, f, fe, dq, mf, mfe, fe95, lo, hi, r0, r1, ars.
    do 9 (split; [assumption|]).
    split; [apply list_get_Ok_inv; exact Hr0|].
    split; [apply list_get_Ok_inv; exact Hr1|].
    split; [exact Hars|].
    rewrite (filter_debug_all
               ([DebugOplot w f fe dq mf mfe fsf fesf fe95; grey_span lo r0;
                 grey_span r1 hi]
                ++ map (fun ar => grey_span (minwl ar) (maxwl ar)) ars)).
    + simpl. rewrite !app_nil_r. reflexivity.
    + apply Forall_app; split; [repeat constructor | apply map_grey_span_debug].
Qed.


(** Axis styling by size: a big plot gets the wavelength and flux axis
    labels (and the full y tick format when [full_ylabels]); a thumbnail
    gets no axis label and exactly two x ticks, [nanmin] and [nanmax] of
    the wavelengths, in increasing order when a wavelength is not NaN. *)
Theorem subplot_axis_style (is_bigplot : bool) (n_associations : Z)
  (association_indices : list Z) (i : nat) (debug full_ylabels : bool)
  (fsf fesf : fl) (stitched : gmap string pyval)
  (plot_metrics : list (gmap string pyval)) (ops : list op)
  (Hr : render_assoc is_bigplot n_associations association_indices i debug
          full_ylabels fsf fesf stitched plot_metrics = Ok ops) :
  (is_bigplot = true ->
   SetXlabel "Wavelength $(\AA)$" 16 ∈ ops /\
   SetYlabel "Flux $\mathrm{(erg/s/cm^2\!/\AA)}$" 16 ∈ ops /\
   (full_ylabels = true -> SetYFormatter "%3.2E" ∈ ops)) /\
  (is_bigplot = false ->
   (forall s sz, (SetXlabel s sz ∉ ops) /\ (SetYlabel s sz ∉ ops)) /\
   exists w lo hi,
     stitched !! "wls" = Some w /\ nanmin w = Ok lo /\ nanmax w = Ok hi /\
     SetXticks [lo; hi] ∈ ops /\
     (forall xs, w = VArr xs -> (exists x, x ∈ xs /\ is_nan x = false) ->
      fle lo hi = true)).
Proof.
  destruct (render_assoc_shape _ _ _ _ _ _ _ _ _ _ _ Hr)
    as [w [f [fe [dq [t [assoc [pm [rng [fin [body
       [Hg [Ha [_ [_ [_ [Hb ->]]]]]]]]]]]]]]]].
  destruct (get_stitched_Ok_inv _ _ _ _ _ _ Hg) as [Hw _].
  assert (Hbody : exists pre post sty,
            body = pre ++ sty ++ post /\
            style_ops is_bigplot full_ylabels w = Ok sty /\
            (forall s sz, (SetXlabel s sz ∉ pre ++ post) /\
                          (SetYlabel s sz ∉ pre ++ post))).
  { destruct fin.
    - destruct (valid_branch_shape _ _ _ _ _ _ _ _ _ _ _ _ Hb)
        as [dbg [sty [yl [-> [Hsty [Hnd Hd]]]]]].
      exists ([Plot w f "b"; Grid true] ++ dbg ++ [SetXlimAuto]), yl, sty.
      split; [rewrite <- !app_assoc; reflexivity|]. split; [exact Hsty|].
      intros s sz. destruct debug.
      + destruct (Hd eq_refl) as [-> [mf [mfe [fe95 [lo [hi [r0 [r1 [ars
          [_ [_ [_ [_ [_ [_ [_ [_ ->]]]]]]]]]]]]]]]]].
        split; intros Hin; ops_not_mem.
      + destruct (Hnd eq_refl) as [-> [yr [_ ->]]].
        split; intros Hin; ops_not_mem.
    - destruct (degenerate_branch_shape _ _ _ _ Hb)
        as [lo [hi [sty [_ [_ [Hsty ->]]]]]].
      exists [SetXlim lo hi; SetAxisBgcolor "lightgrey"; SetYticklabels []],
        [TextCentered (zero_flux_text is_bigplot) (zero_flux_textsize is_bigplot)],
        sty.
      split; [reflexivity|]. split; [exact Hsty|].
      intros s sz. split; intros Hin; ops_not_mem. }
  destruct Hbody as [pre [post [sty [-> [Hsty Hpp]]]]].
  destruct (style_ops_shape _ _ _ _ Hsty) as [Hs Hbig].
  assert (Hsub : forall o, o ∈ sty ->
            o ∈ (if is_bigplot then [SetTitle t "right" "small" "red"] else [])
                ++ assoc ++ pre ++ sty ++ post).
  { intros o Ho. rewrite !elem_of_app. tauto. }
  split.
  - intros ->. pose proof (Hbig eq_refl) as Hst.
    split; [|split].
    + apply Hsub. rewrite Hst. list_mem.
    + apply Hsub. rewrite Hst. list_mem.
    + intros ->. apply Hsub. rewrite Hst. list_mem.
  - intros ->. destruct (Hs eq_refl) as [lo [hi [Hlo [Hhi ->]]]].
    split.
    + intros s sz.
      destruct Ha as [[_ ->] | [a [E _]]]; [|rewrite andb_false_r in E; discriminate].
      destruct (Hpp s sz) as [Hx Hy].
      split; intros Hin.
      * apply elem_of_app in Hin as [Hin | Hin]; [ops_not_mem|].
        apply elem_of_app in Hin as [Hin | Hin]; [ops_not_mem|].
        apply Hx. rewrite elem_of_app in Hin |- *.
        destruct Hin as [Hin | Hin]; [tauto|].
        apply elem_of_app in Hin as [Hin | Hin]; [ops_not_mem | tauto].
      * apply elem_of_app in Hin as [Hin | Hin]; [ops_not_mem|].
        apply elem_of_app in Hin as [Hin | Hin]; [ops_not_mem|].
        apply Hy. rewrite elem_of_app in Hin |- *.
        destruct Hin as [Hin | Hin]; [tauto|].
        apply elem_of_app in Hin as [Hin | Hin]; [ops_not_mem | tauto].
    + exists w, lo, hi. split; [exact Hw|]. split; [exact Hlo|].
      split; [exact Hhi|]. split; [apply Hsub; list_mem|].
      intros xs -> Hx.
      destruct (nanmin_spec xs Hx) as [lo' [Hlo' [_ [_ Hle]]]].
      destruct (nanmax_spec xs Hx) as [hi' [Hhi' [_ [_ Hge]]]].
      rewrite Hlo in Hlo'. injection Hlo' as <-.
      rewrite Hhi in Hhi'. injection Hhi' as <-.
      destruct Hx as [x [Hx Hxn]].
      exact (fle_trans lo x hi Hxn (Hle x Hx Hxn) (Hge x Hx Hxn)).
Qed.

(* ------------------------------------------------------------------ *)
(** ** The figure *)

Lemma render_loop_shape (is_bigplot : bool) (n_associations : Z)
  (association_indices : list Z) (debug full_ylabels : bool) (fsf fesf : fl)
  (plot_metrics : list (gmap string pyval)) (stitched : list (gmap string pyval)) :
  forall (i : nat) (axes : list fig_op),
  render_loop is_bigplot n_associations association_indices debug full_ylabels
    fsf fesf plot_metrics i stitched = Ok axes ->
  exists opss,
    length opss = length stitched /\
    axes = zip_with AxOps (seq i (length stitched)) opss /\
    forall k o, opss !! k = Some o ->
      exists st, stitched !! k = Some st /\
        render_assoc is_bigplot n_associations association_indices (i + k)
          debug full_ylabels fsf fesf st plot_metrics = Ok o.
Proof.
  induction stitched as [|st stitched IH]; intros i axes H;
    cbn [render_loop] in H.
  - injection H as <-. exists []. split; [reflexivity|]. split; [reflexivity|].
    intros k o Hk. rewrite lookup_nil in Hk. discriminate.
  - apply bind_Ok_inv in H as [ops [Hops H]].
    apply bind_Ok_inv in H as [more [Hmore H]].
    injection H as <-.
    destruct (IH (S i) more Hmore) as [opss [Hlen [-> Hk]]].
    exists (ops :: opss). split; [simpl; lia|]. split; [reflexivity|].
    intros [|k] o Hk'; simpl in Hk'.
    + injection Hk' as <-. exists st. split; [reflexivity|].
      rewrite Nat.add_0_r. exact Hops.
    + destruct (Hk k o Hk') as [st' [Hst' Hr]]. exists st'.
      split; [exact Hst'|]. rewrite <- Nat.add_succ_comm. exact Hr.
Qed.

Lemma zip_AxOps_elem (l : list nat) (opss : list (list op)) (x : fig_op) :
  x ∈ zip_with AxOps l opss -> exists k o, x = AxOps k o /\ o ∈ opss.
Proof.
  revert opss. induction l as [|j l IH]; intros [|o' opss] Hin; simpl in Hin;
    try (apply elem_of_nil in Hin; contradiction).
  apply elem_of_cons in Hin as [-> | Hin].
  - exists j, o'. split; [reflexivity|]. apply elem_of_cons. left. reflexivity.
  - destruct (IH _ Hin) as [k [o [-> Ho]]]. exists k, o.
    split; [reflexivity|]. apply elem_of_cons. right. exact Ho.
Qed.

Lemma plotspec_Ok_inv (env : os_env) (sp : stis_spectrum)
  (association_indices : list Z) (stitched_spectra : list (gmap string pyval))
  (output_type output_file : string) (n_consecutive : Z) (fsf fesf : fl)
  (plot_metrics : list (gmap string pyval)) (dpi_val : fl) (output_size : Z)
  (debug full_ylabels : bool) (ops : list fig_op) :
  outcome (plotspec env sp association_indices stitched_spectra output_type
             output_file n_consecutive fsf fesf plot_metrics dpi_val
             output_size debug full_ylabels) = Ok ops ->
  exists layout opss,
    ops = [FigSubplots (Z.of_nat (length stitched_spectra)) output_size dpi_val]
          ++ layout ++ zip_with AxOps (seq 0 (length stitched_spectra)) opss
          ++ (if bool_decide (output_type <> "screen") then
                [SaveFig (of_chars (revised_output_file (chars output_file)
                                      output_size)) output_type dpi_val]
              else [Show]) /\
    ((128 <? output_size) = false -> layout = [FigAdjust false]) /\
    ((128 <? output_size) = true ->
       exists f, orig_file sp = Some f /\
         layout = [FigAdjust true; FigSuptitle (of_chars (basename (chars f)))]) /\
    length opss = length stitched_spectra /\
    forall k o, opss !! k = Some o ->
      exists st, stitched_spectra !! k = Some st /\
        render_assoc (128 <? output_size)
          (Z.of_nat (length (associations sp))) association_indices k debug
          full_ylabels fsf fesf st plot_metrics = Ok o.
Proof.
  unfold plotspec.
  destruct (ensure_output_dir env output_type output_file) as [txt dok].
  cbn [outcome]. intros H.
  apply bind_Ok_inv in H as [u [_ H]]. cbv beta zeta in H.
  apply bind_Ok_inv in H as [layout [Hl H]].
  apply bind_Ok_inv in H as [axes [Hax H]].
  injection H as <-.
  destruct (render_loop_shape _ _ _ _ _ _ _ _ _ 0 axes Hax)
    as [opss [Hlen [-> Hk]]].
  exists layout, opss. split; [reflexivity|]. split; [|split].
  - intros E. rewrite E in Hl. injection Hl as <-. reflexivity.
  - intros E. rewrite E in Hl.
    apply bind_Ok_inv in Hl as [t [Ht Hl]]. injection Hl as <-.
    unfold orig_basename in Ht. destruct (orig_file sp) as [f|];
      [injection Ht as <-; eauto | discriminate].
  - split; [exact Hlen|]. exact Hk.
Qed.

Lemma ensure_output_dir_ready (env : os_env) (output_type output_file : string) :
  (output_type = "screen" \/
   isdir env (of_chars (dirname (chars output_file))) = true \/
   mkdir env (of_chars (dirname (chars output_file))) = None) ->
  ensure_output_dir env output_type output_file = ("", Ok tt).
Proof.
  unfold ensure_output_dir. intros [-> | [Hd | Hm]].
  - rewrite bool_decide_false; [reflexivity | tauto].
  - destruct (bool_decide _); [|reflexivity]. rewrite Hd. reflexivity.
  - destruct (bool_decide _); [|reflexivity].
    destruct (isdir env _); [reflexivity|]. rewrite Hm. reflexivity.
Qed.

(** In screen mode [plotspec] never touches the file system: the run is
    the same whatever [os.path.isdir] and [os.mkdir] do, nothing goes to
    stderr, and a successful run ends by showing the figure. *)
Theorem plotspec_screen_no_files (env1 env2 : os_env) (sp : stis_spectrum)
  (association_indices : list Z) (stitched_spectra : list (gmap string pyval))
  (output_file : string) (n_consecutive : Z) (fsf fesf : fl)
  (plot_metrics : list (gmap string pyval)) (dpi_val : fl) (output_size : Z)
  (debug full_ylabels : bool) :
  plotspec env1 sp association_indices stitched_spectra "screen" output_file
    n_consecutive fsf fesf plot_metrics dpi_val output_size debug full_ylabels =
  plotspec env2 sp association_indices stitched_spectra "screen" output_file
    n_consecutive fsf fesf plot_metrics dpi_val output_size debug full_ylabels /\
  stderr_out (plotspec env1 sp association_indices stitched_spectra "screen"
                output_file n_consecutive fsf fesf plot_metrics dpi_val
                output_size debug full_ylabels) = "" /\
  forall ops,
    outcome (plotspec env1 sp association_indices stitched_spectra "screen"
               output_file n_consecutive fsf fesf plot_metrics dpi_val
               output_size debug full_ylabels) = Ok ops ->
    last ops = Some Show.
Proof.
  split; [|split].
  - unfold plotspec.
    rewrite !(ensure_output_dir_ready _ "screen" output_file (or_introl eq_refl)).
    reflexivity.
  - unfold plotspec.
    rewrite (ensure_output_dir_ready _ "screen" output_file (or_introl eq_refl)).
    reflexivity.
  - intros ops Hok.
    destruct (plotspec_Ok_inv _ _ _ _ _ _ _ _ _ _ _ _ _ _ _ Hok)
      as [layout [opss [-> _]]].
    rewrite bool_decide_false by tauto.
    rewrite !app_assoc. apply last_snoc.
Qed.

(** To a file, when the output directory exists or [os.mkdir] creates it:
    the run does not depend on the file system any further, nothing goes
    to stderr, and a successful run ends by saving the figure under the
    size-tagged file name, in [output_type] format, at [dpi_val]. *)
Theorem plotspec_file_dir_ready (env1 env2 : os_env) (sp : stis_spectrum)
  (association_indices : list Z) (stitched_spectra : list (gmap string pyval))
  (output_type output_file : string) (n_consecutive : Z) (fsf fesf : fl)
  (plot_metrics : list (gmap string pyval)) (dpi_val : fl) (output_size : Z)
  (debug full_ylabels : bool)
  (Hot : output_type <> "screen")
  (H1 : isdir env1 (of_chars (dirname (chars output_file))) = true \/
        mkdir env1 (of_chars (dirname (chars output_file))) = None)
  (H2 : isdir env2 (of_chars (dirname (chars output_file))) = true \/
        mkdir env2 (of_chars (dirname (chars output_file))) = None) :
  plotspec env1 sp association_indices stitched_spectra output_type output_file
    n_consecutive fsf fesf plot_metrics dpi_val output_size debug full_ylabels =
  plotspec env2 sp association_indices stitched_spectra output_type output_file
    n_consecutive fsf fesf plot_metrics dpi_val output_size debug full_ylabels /\
  stderr_out (plotspec env1 sp association_indices stitched_spectra output_type
                output_file n_consecutive fsf fesf plot_metrics dpi_val
                output_size debug full_ylabels) = "" /\
  forall ops,
    outcome (plotspec env1 sp association_indices stitched_spectra output_type
               output_file n_consecutive fsf fesf plot_metrics dpi_val
               output_size debug full_ylabels) = Ok ops ->
    last ops = Some (SaveFig (of_chars (revised_output_file (chars output_file)
                                          output_size)) output_type dpi_val).
Proof.
  split; [|split].
  - unfold plotspec.
    rewrite (ensure_output_dir_ready env1 output_type output_file (or_intror H1)),
      (ensure_output_dir_ready env2 output_type output_file (or_intror H2)).
    reflexivity.
  - unfold plotspec.
    rewrite (ensure_output_dir_ready env1 output_type output_file (or_intror H1)).
    reflexivity.
  - intros ops Hok.
    destruct (plotspec_Ok_inv _ _ _ _ _ _ _ _ _ _ _ _ _ _ _ Hok)
      as [layout [opss [-> _]]].
    rewrite bool_decide_true by exact Hot.
    rewrite !app_assoc. apply last_snoc.
Qed.

(** A successful run makes one subplot per stitched spectrum: the figure
    has [len(stitched_spectra)] rows, and its subplots are drawn in order,
    subplot [k] being what the loop body renders for the [k]-th stitched
    spectrum and [plot_metrics[k]]. *)
Theorem plotspec_subplots (env : os_env) (sp : stis_spectrum)
  (association_indices : list Z) (stitched_spectra : list (gmap string pyval))
  (output_type output_file : string) (n_consecutive : Z) (fsf fesf : fl)
  (plot_metrics : list (gmap string pyval)) (dpi_val : fl) (output_size : Z)
  (debug full_ylabels : bool) (ops : list fig_op)
  (Hok : outcome (plotspec env sp association_indices stitched_spectra
                    output_type output_file n_consecutive fsf fesf plot_metrics
                    dpi_val output_size debug full_ylabels) = Ok ops) :
  exists layout opss out,
    ops = [FigSubplots (Z.of_nat (length stitched_spectra)) output_size dpi_val]
          ++ layout ++ zip_with AxOps (seq 0 (length stitched_spectra)) opss
          ++ [out] /\
    length opss = length stitched_spectra /\
    forall k o, opss !! k = Some o ->
      exists st, stitched_spectra !! k = Some st /\
        render_assoc (128 <? output_size)
          (Z.of_nat (length (associations sp))) association_indices k debug
          full_ylabels fsf fesf st plot_metrics = Ok o.
Proof.
  destruct (plotspec_Ok_inv _ _ _ _ _ _ _ _ _ _ _ _ _ _ _ Hok)
    as [layout [opss [-> [_ [_ [Hlen Hk]]]]]].
  destruct (bool_decide _); eexists layout, opss, _;
    (split; [reflexivity | split; [exact Hlen | exact Hk]]).
Qed.

(** Titles by size: a thumbnail ([output_size <= 128]) has no figure title
    and no subplot title; a big plot has the base name of [orig_file] as
    figure title (so [orig_file] is set) and subplot [k] starts with the
    title of [stitched_spectra[k]]. *)
Theorem plotspec_titles_by_size (env : os_env) (sp : stis_spectrum)
  (association_indices : list Z) (stitched_spectra : list (gmap string pyval))
  (output_type output_file : string) (n_consecutive : Z) (fsf fesf : fl)
  (plot_metrics : list (gmap string pyval)) (dpi_val : fl) (output_size : Z)
  (debug full_ylabels : bool) (ops : list fig_op)
  (Hok : outcome (plotspec env sp association_indices stitched_spectra
                    output_type output_file n_consecutive fsf fesf plot_metrics
                    dpi_val output_size debug full_ylabels) = Ok ops) :
  (output_size <= 128 ->
   (forall s, FigSuptitle s ∉ ops) /\
   forall k o, AxOps k o ∈ ops -> forall t l sz c, SetTitle t l sz c ∉ o) /\
  (128 < output_size ->
   (exists f, orig_file sp = Some f /\
              FigSuptitle (of_chars (basename (chars f))) ∈ ops) /\
   forall k o, AxOps k o ∈ ops ->
     exists st t rest, stitched_spectra !! k = Some st /\
       st !! "title" = Some t /\
       o = SetTitle t "right" "small" "red" :: rest).
Proof.
  destruct (plotspec_Ok_inv _ _ _ _ _ _ _ _ _ _ _ _ _ _ _ Hok)
    as [layout [opss [-> [Hsmall [Hbig [_ Hk]]]]]].
  assert (Hax : forall k o,
            AxOps k o ∈ [FigSubplots (Z.of_nat (length stitched_spectra))
                           output_size dpi_val]
              ++ layout ++ zip_with AxOps (seq 0 (length stitched_spectra)) opss
              ++ (if bool_decide (output_type <> "screen") then
                    [SaveFig (of_chars (revised_output_file (chars output_file)
                                          output_size)) output_type dpi_val]
                  else [Show]) ->
            (layout = [FigAdjust false] \/
             exists s, layout = [FigAdjust true; FigSuptitle s]) ->
            exists st, stitched_spectra !! k = Some st /\
              render_assoc (128 <? output_size)
                (Z.of_nat (length (associations sp))) association_indices k
                debug full_ylabels fsf fesf st plot_metrics = Ok o).
  { intros k o Hin Hl.
    apply elem_of_app in Hin as [Hin | Hin]; [ops_not_mem|].
    apply elem_of_app in Hin as [Hin | Hin].
    - destruct Hl as [-> | [s ->]]; ops_not_mem.
    - apply elem_of_app in Hin as [Hin | Hin]; [|ops_not_mem].
      apply elem_of_lookup_zip_with_1 in Hin as [j [x [y [Heq [Hx Hy]]]]].
      injection Heq as -> ->.
      apply lookup_seq in Hx as [-> _].
      exact (Hk j y Hy). }
  split.
  - intros Hsz.
    assert (E : (128 <? output_size) = false) by (apply Z.ltb_ge; lia).
    rewrite (Hsmall E) in Hax |- *.
    split.
    + intros s Hin. ops_not_mem.
      apply zip_AxOps_elem in Hin as [k [o [Heq _]]]. discriminate.
    + intros k o Hin t l sz c Ht.
      destruct (Hax k o Hin (or_introl eq_refl)) as [st [_ Hr]].
      rewrite E in Hr.
      destruct (render_assoc_shape _ _ _ _ _ _ _ _ _ _ _ Hr)
        as [w [f [fe [dq [t' [assoc [pm [rng [fin [body
           [_ [Ha [_ [_ [_ [Hb ->]]]]]]]]]]]]]]]].
      destruct Ha as [[_ ->] | [a [Ea _]]];
        [|rewrite andb_false_r in Ea; discriminate].
      pose proof (body_no_title _ _ _ _ _ _ _ _ _ _ _ _ _ Hb) as Hnt.
      rewrite Forall_forall in Hnt.
      specialize (Hnt _ Ht). discriminate.
  - intros Hsz.
    assert (E : (128 <? output_size) = true) by (apply Z.ltb_lt; lia).
    destruct (Hbig E) as [f [Hf ->]].
    split.
    + exists f. split; [exact Hf|]. list_mem.
    + intros k o Hin.
      destruct (Hax k o Hin (or_intror (ex_intro _ _ eq_refl)))
        as [st [Hst Hr]].
      rewrite E in Hr.
      destruct (render_assoc_shape _ _ _ _ _ _ _ _ _ _ _ Hr)
        as [w [f' [fe [dq [t [assoc [pm [rng [fin [body
           [Hg [_ [_ [_ [_ [_ ->]]]]]]]]]]]]]]]].
      destruct (get_stitched_Ok_inv _ _ _ _ _ _ Hg) as [_ [_ [_ [_ Ht]]]].
      exists st, t, (assoc ++ body). auto.
Qed.

(* ------------------------------------------------------------------ *)
(** ** A bare output file name *)

(** An [output_file] without a directory part has an empty [dirname] (the
    directory [plotspec] checks and creates is [""]), and the saved name is
    [os.path.sep] followed by the size-tagged file name, which has no other
    separator: the figure goes to the root directory. *)
Theorem output_file_without_dir (t : list ascii) (n : Z)
  (Ht : "/"%char ∉ t) :
  dirname t = [] /\
  revised_output_file t n =
    "/"%char :: (splitext t).1 ++ ["_"%char] ++ format_04d n ++ (splitext t).2 /\
  "/"%char ∉ (splitext t).1 ++ ["_"%char] ++ format_04d n ++ (splitext t).2.
Proof.
  assert (Hr : rfind "/"%char t = -1) by (apply rfind_absent; exact Ht).
  assert (Hh : path_head t = []).
  { unfold path_head. rewrite Hr. reflexivity. }
  split; [exact Hh|]. split; [|apply revised_no_slash; exact Ht].
  unfold revised_output_file, path_split. rewrite Hh, Hr.
  change (drop (Z.to_nat (-1 + 1)) t) with (drop 0 t). rewrite drop_0.
  destruct (splitext t) as [root ext]. reflexivity.
Qed.

(* ------------------------------------------------------------------ *)
(** ** Instances at concrete inputs *)

Lemma subplot_association_title_witness :
  render_assoc true 2 [] 0 false false (Fin 10) (Fin 5)
    (sample_stitched [Fin 1500; Fin 1600]) [sample_metrics] = Err IndexError.
Proof.
  destruct (subplot_association_title true 2 0 false false (Fin 10) (Fin 5)
              (sample_stitched [Fin 1500; Fin 1600]) [sample_metrics])
    as [_ [P _]].
  apply P; [reflexivity | lia | | reflexivity].
  do 5 eexists. reflexivity.
Defined.

Lemma subplot_y_range_witness :
  exists ops,
    render_assoc false 1 [0] 0 false false (Fin 10) (Fin 5)
      (sample_stitched [Fin 1500; Fin 1600]) [sample_metrics] = Ok ops /\
    ((exists w f, sample_stitched [Fin 1500; Fin 1600] !! "wls" = Some w /\
                  sample_stitched [Fin 1500; Fin 1600] !! "fls" = Some f /\
                  Plot w f "b" ∈ ops) /\
     (false = false ->
      exists yr, sample_metrics !! "y_axis_range" = Some yr /\
                 last ops = Some (SetYlim yr)) /\
     (false = true -> forall yr, SetYlim yr ∉ ops)).
Proof.
  eexists. split; [reflexivity|].
  apply (subplot_y_range false 1 [0] 0 false false (Fin 10) (Fin 5)
           (sample_stitched [Fin 1500; Fin 1600]) [sample_metrics] _
           sample_metrics [Fin 1510; Fin 1590]); reflexivity.
Defined.

Lemma subplot_debug_overlay_witness :
  exists ops,
    render_assoc true 1 [0] 0 true false (Fin 10) (Fin 5)
      (sample_stitched [Fin 1500; Fin 1600]) [sample_metrics] = Ok ops /\
    filter (fun o => is_debug_op o = true) ops =
      [DebugOplot (VArr [Fin 1500; Fin 1600]) (VArr [Fin 0; Fin 0])
         (VArr [Fin 0; Fin 0]) (VArr [Fin 0; Fin 0]) (VFloat (Fin 1))
         (VFloat (Fin 1)) (Fin 10) (Fin 5) (VFloat (Fin 2));
       Axvspan (Fin 1500) (Fin 1510) "lightgrey";
       Axvspan (Fin 1590) (Fin 1600) "lightgrey";
       Axvspan (Fin 1540) (Fin 1550) "lightgrey"].
Proof.
  eexists. split; [reflexivity|].
  destruct (subplot_debug_overlay true 1 [0] 0 true false (Fin 10) (Fin 5)
              (sample_stitched [Fin 1500; Fin 1600]) [sample_metrics] _
              sample_metrics [Fin 1510; Fin 1590]
              eq_refl eq_refl eq_refl eq_refl) as [_ P].
  destruct (P eq_refl) as [w [f [fe [dq [mf [mfe [fe95 [lo [hi [r0 [r1 [ars
    [Hw [Hf [Hfe [Hdq [Hmf [Hmfe [Hfe95 [Hlo [Hhi [Hr0 [Hr1 [Hars ->]]]]]]]]]]]]]]]]]]]]]]]].
  vm_compute in Hw, Hf, Hfe, Hdq, Hmf, Hmfe, Hfe95, Hlo, Hhi, Hr0, Hr1, Hars.
  injection Hw as <-. injection Hf as <-. injection Hfe as <-.
  injection Hdq as <-. injection Hmf as <-. injection Hmfe as <-.
  injection Hfe95 as <-. injection Hlo as <-. injection Hhi as <-.
  injection Hr0 as <-. injection Hr1 as <-. injection Hars as <-.
  reflexivity.
Defined.


Lemma subplot_axis_style_witness :
  exists ops,
    render_assoc false 1 [0] 0 false false (Fin 10) (Fin 5)
      (sample_stitched [Fin 1500; Fin 1600]) [sample_metrics] = Ok ops /\
    (forall s sz, (SetXlabel s sz ∉ ops) /\ (SetYlabel s sz ∉ ops)) /\
    SetXticks [Fin 1500; Fin 1600] ∈ ops.
Proof.
  eexists. split; [reflexivity|].
  destruct (subplot_axis_style false 1 [0] 0 false false (Fin 10) (Fin 5)
              (sample_stitched [Fin 1500; Fin 1600]) [sample_metrics] _
              eq_refl) as [_ P].
  destruct (P eq_refl) as [Hno [w [lo [hi [Hw [Hlo [Hhi [Hin _]]]]]]]].
  vm_compute in Hw. injection Hw as <-.
  vm_compute in Hlo, Hhi. injection Hlo as <-. injection Hhi as <-.
  split; [exact Hno | exact Hin].
Defined.

Lemma plotspec_file_dir_ready_witness :
  plotspec ready_env sample_spectrum [0] [sample_stitched [Fin 1500; Fin 1600]]
    "png" "/data/previews/o6ig01020.png" 20 (Fin 10) (Fin 5) [sample_metrics]
    (Fin 96) 512 false false =
  plotspec fresh_env sample_spectrum [0] [sample_stitched [Fin 1500; Fin 1600]]
    "png" "/data/previews/o6ig01020.png" 20 (Fin 10) (Fin 5) [sample_metrics]
    (Fin 96) 512 false false.
Proof.
  apply (plotspec_file_dir_ready ready_env fresh_env sample_spectrum [0]
           [sample_stitched [Fin 1500; Fin 1600]] "png"
           "/data/previews/o6ig01020.png" 20 (Fin 10) (Fin 5) [sample_metrics]
           (Fin 96) 512 false false ltac:(discriminate)
           (or_introl eq_refl) (or_intror eq_refl)).
Defined.

Lemma plotspec_subplots_witness :
  exists ops,
    outcome (plotspec ready_env sample_spectrum [0]
               [sample_stitched [Fin 1500; Fin 1600]] "screen" "" 20
               (Fin 10) (Fin 5) [sample_metrics] (Fin 96) 100 false false)
      = Ok ops /\
    exists layout opss out,
      ops = [FigSubplots 1 100 (Fin 96)] ++ layout
            ++ zip_with AxOps (seq 0 1) opss ++ [out] /\
      length opss = 1%nat /\
      forall k o, opss !! k = Some o ->
        exists st, [sample_stitched [Fin 1500; Fin 1600]] !! k = Some st /\
          render_assoc false 1 [0] k false false (Fin 10) (Fin 5) st
            [sample_metrics] = Ok o.
Proof.
  eexists. split; [reflexivity|].
  apply (plotspec_subplots ready_env sample_spectrum [0]
           [sample_stitched [Fin 1500; Fin 1600]] "screen" "" 20 (Fin 10)
           (Fin 5) [sample_metrics] (Fin 96) 100 false false _ eq_refl).
Defined.

Lemma plotspec_titles_by_size_witness :
  exists ops,
    outcome (plotspec ready_env sample_spectrum [0]
               [sample_stitched [Fin 1500; Fin 1600]] "png"
               "/data/previews/o6ig01020.png" 20 (Fin 10) (Fin 5)
               [sample_metrics] (Fin 96) 512 false false) = Ok ops /\
    exists f, orig_file sample_spectrum = Some f /\
              FigSuptitle (of_chars (basename (chars f))) ∈ ops.
Proof.
  eexists. split; [reflexivity|].
  destruct (plotspec_titles_by_size ready_env sample_spectrum [0]
              [sample_stitched [Fin 1500; Fin 1600]] "png"
              "/data/previews/o6ig01020.png" 20 (Fin 10) (Fin 5)
              [sample_metrics] (Fin 96) 512 false false _ eq_refl) as [_ P].
  exact (proj1 (P ltac:(lia))).
Defined.

Lemma output_file_without_dir_witness :
  of_chars (revised_output_file (chars "o6ig01020.png") 256) = "/o6ig01020_0256.png"
  /\ of_chars (dirname (chars "o6ig01020.png")) = "".
Proof.
  destruct (output_file_without_dir (chars "o6ig01020.png") 256
              ltac:(vm_compute; list_not_mem)) as [Hd [Hr _]].
  rewrite Hr, Hd. split; reflexivity.
Defined.
